(** * sync_examples: the example-to-markdown generator of the wave repository

    A shallow embedding of [py/sync_examples.py].  A Python [str] is a
    sequence of Unicode code points, so it is modelled as a list of [N]; the
    templates of the generator contain U+2002, which rules out 8-bit
    characters.  String literals are written with [py "..."]. *)

From Stdlib Require Import String Ascii.
From Stdlib Require Import List NArith ZArith Arith Lia Bool.
From Stdlib Require Import Sorting.Sorted Sorting.Permutation.
Import ListNotations.

(** ** Python strings *)

Definition char := N.
Definition str := list char.

(** An ASCII literal as a Python string. *)
Definition py (s : String.string) : str :=
  map Ascii.N_of_ascii (String.list_ascii_of_string s).
Arguments py s%_string.

Definition LF : char := 10%N.
Definition CR : char := 13%N.
Definition space : char := 32%N.
Definition hash : char := 35%N.
Definition comma : char := 44%N.
Definition hyphen : char := 45%N.
Definition period : char := 46%N.
Definition slash : char := 47%N.
Definition underscore : char := 95%N.
(** U+2002 EN SPACE, used by the link separators of the templates. *)
Definition ensp : char := 8194%N.

Definition nl : str := [LF].

Module PyStr.

(** [c.isspace()] as [str.strip()] uses it (the Unicode White_Space
    characters together with the separators U+001C..U+001F). *)
Definition isspace (c : char) : bool :=
  ((9 <=? c) && (c <=? 13) || (28 <=? c) && (c <=? 31) || (c =? 32)
   || (c =? 133) || (c =? 160) || (c =? 5760)
   || (8192 <=? c) && (c <=? 8202) || (c =? 8232) || (c =? 8233)
   || (c =? 8239) || (c =? 8287) || (c =? 12288))%N.

(** The line boundaries of [str.splitlines()]. *)
Definition is_linebreak (c : char) : bool :=
  ((10 <=? c) && (c <=? 13) || (28 <=? c) && (c <=? 30)
   || (c =? 133) || (c =? 8232) || (c =? 8233))%N.

Definition char_in (c : char) (chars : str) : bool :=
  existsb (N.eqb c) chars.

(** [s.startswith(pat)] *)
Fixpoint startswith (pat s : str) : bool :=
  match pat, s with
  | [], _ => true
  | _ :: _, [] => false
  | p :: pat', c :: s' => (p =? c)%N && startswith pat' s'
  end.

(** [pat in s] *)
Fixpoint contains (pat s : str) : bool :=
  startswith pat s
  || match s with
     | [] => false
     | _ :: s' => contains pat s'
     end.

Fixpoint dropwhile (p : char -> bool) (s : str) : str :=
  match s with
  | [] => []
  | c :: s' => if p c then dropwhile p s' else s
  end.

Definition lstrip_by (p : char -> bool) (s : str) : str := dropwhile p s.
Definition rstrip_by (p : char -> bool) (s : str) : str :=
  rev (dropwhile p (rev s)).
Definition strip_by (p : char -> bool) (s : str) : str :=
  rstrip_by p (lstrip_by p s).

(** [s.strip()] *)
Definition strip (s : str) : str := strip_by isspace s.
(** [s.strip(chars)] *)
Definition strip_chars (chars s : str) : str :=
  strip_by (fun c => char_in c chars) s.

(** [s.split(sep)] for a separator of one character: never empty. *)
Fixpoint split (sep : char) (s : str) : list str :=
  match s with
  | [] => [[]]
  | c :: s' =>
      if (c =? sep)%N then [] :: split sep s'
      else match split sep s' with
           | [] => [[c]]
           | w :: ws => (c :: w) :: ws
           end
  end.

(** The text before and after the first occurrence of [sep], if any. *)
Fixpoint partition (sep s : str) {struct s} : option (str * str) :=
  if startswith sep s then Some ([], skipn (length sep) s)
  else match s with
       | [] => None
       | c :: s' =>
           match partition sep s' with
           | Some (a, b) => Some (c :: a, b)
           | None => None
           end
       end.

(** [s.split(sep, maxsplit=1)] for a non-empty [sep]. *)
Definition split_max1 (sep s : str) : list str :=
  match partition sep s with
  | Some (a, b) => [a; b]
  | None => [s]
  end.

(** [s.splitlines()]: [after_cr] tells that the previous character was a
    carriage return, whose following line feed belongs to the same
    boundary. *)
Fixpoint splitlines_go (after_cr : bool) (s : str) : list str :=
  match s with
  | [] => []
  | c :: s' =>
      if after_cr && (c =? LF)%N then splitlines_go false s'
      else if is_linebreak c then [] :: splitlines_go (c =? CR)%N s'
      else match splitlines_go false s' with
           | [] => [[c]]
           | l :: ls => (c :: l) :: ls
           end
  end.
Definition splitlines (s : str) : list str := splitlines_go false s.

(** [sep.join(l)] *)
Fixpoint join (sep : str) (l : list str) : str :=
  match l with
  | [] => []
  | [x] => x
  | x :: l' => x ++ sep ++ join sep l'
  end.

(** [s.replace(old, new)] for [old] and [new] of one character. *)
Definition replace (old new : char) (s : str) : str :=
  map (fun c => if (c =? old)%N then new else c) s.

(** [s.rfind(c)] for a pattern of one character; -1 when absent. *)
Fixpoint rfind_from (i : Z) (c : char) (s : str) : Z :=
  match s with
  | [] => (-1)%Z
  | x :: s' =>
      let r := rfind_from (i + 1) c s' in
      if (0 <=? r)%Z then r else if (x =? c)%N then i else (-1)%Z
  end.
Definition rfind (c : char) (s : str) : Z := rfind_from 0 c s.

(** [f.readlines()] on the text of a file: lines keep their line feed. *)
Fixpoint readlines (s : str) : list str :=
  match s with
  | [] => []
  | c :: s' =>
      if (c =? LF)%N then [c] :: readlines s'
      else match readlines s' with
           | [] => [[c]]
           | l :: ls => (c :: l) :: ls
           end
  end.

(** [a == b] *)
Fixpoint eqb (a b : str) : bool :=
  match a, b with
  | [], [] => true
  | x :: a', y :: b' => (x =? y)%N && eqb a' b'
  | _, _ => false
  end.

(** Code-point order, as [<] compares two [str]. *)
Fixpoint compare (a b : str) : comparison :=
  match a, b with
  | [], [] => Eq
  | [], _ :: _ => Lt
  | _ :: _, [] => Gt
  | x :: a', y :: b' =>
      match (x ?= y)%N with
      | Eq => compare a' b'
      | c => c
      end
  end.
Definition leb (a b : str) : bool :=
  match compare a b with Gt => false | _ => true end.
Definition ltb (a b : str) : bool :=
  match compare a b with Lt => true | _ => false end.

End PyStr.

(** ** Exceptions and the pieces of the standard library the generator calls *)

Inductive exn : Set := IndexError | OSError.

Inductive result (A : Type) : Type :=
| Ok (a : A)
| Raise (e : exn).
Arguments Ok {A} a.
Arguments Raise {A} e.

Definition bind {A B : Type} (m : result A) (k : A -> result B) : result B :=
  match m with
  | Ok a => k a
  | Raise e => Raise e
  end.

Notation "x <- m ;; k" := (bind m (fun x => k))
  (at level 61, m at next level, right associativity).

Fixpoint mapM {A B : Type} (f : A -> result B) (l : list A) : result (list B) :=
  match l with
  | [] => Ok []
  | x :: l' => y <- f x ;; ys <- mapM f l' ;; Ok (y :: ys)
  end.

(** [l[i]], with Python's negative indices. *)
Definition getitem {A : Type} (l : list A) (i : Z) : result A :=
  let n := Z.of_nat (length l) in
  let j := if (i <? 0)%Z then (i + n)%Z else i in
  if (j <? 0)%Z then Raise IndexError
  else match nth_error l (Z.to_nat j) with
       | Some x => Ok x
       | None => Raise IndexError
       end.

Module PosixPath.

(** The loop of [genericpath._splitext] over [p[filenameIndex:dotIndex]]:
    does it meet a character other than a dot? *)
Fixpoint skip_leading_dots (seg : str) : bool :=
  match seg with
  | [] => false
  | c :: seg' => if negb (c =? period)%N then true else skip_leading_dots seg'
  end.

(** [os.path.splitext(p)] of [posixpath]. *)
Definition splitext (p : str) : str * str :=
  let sepIndex := PyStr.rfind slash p in
  let dotIndex := PyStr.rfind period p in
  if (sepIndex <? dotIndex)%Z then
    let filenameIndex := (sepIndex + 1)%Z in
    if skip_leading_dots
         (firstn (Z.to_nat (dotIndex - filenameIndex))
            (skipn (Z.to_nat filenameIndex) p))
    then (firstn (Z.to_nat dotIndex) p, skipn (Z.to_nat dotIndex) p)
    else (p, [])
  else (p, []).

(** [os.path.join(a, b)] of [posixpath]. *)
Definition join (a b : str) : str :=
  if PyStr.startswith [slash] b then b
  else match rev a with
       | [] => b
       | c :: _ => if (c =? slash)%N then a ++ b else a ++ [slash] ++ b
       end.

End PosixPath.

(** ** The generator *)

(** [class Example]: the attributes [__init__] sets. *)
Record Example : Type := MkExample {
  name : str;
  slug : str;
  filename : str;
  title : str;
  subtitle : str;
  description : str;
  keywords : list str;
  code : str
}.

(** [Example.__init__] *)
Definition Example_init (filename title description : str)
    (keywords : list str) (code : str) : Example :=
  let name := fst (PosixPath.splitext filename) in
  {| name := name;
     slug := PyStr.replace underscore hyphen name;
     filename := filename;
     title := title;
     subtitle := PyStr.strip (hd [] (PyStr.split LF description));
     description := description;
     keywords := keywords;
     code := code |}.

(** The link separator of the templates: a space and U+2002. *)
Definition link_sep : str := [space; ensp].

(** One entry of [keyword_tags] in [Example.to_md]. *)
Definition keyword_tag (k : str) : str :=
  py "<a href={useBaseUrl('docs/examples/examples-tags#" ++ k ++ py "')}>"
  ++ k ++ py "</a>".

Definition to_md_body (e : Example) : str :=
  nl ++ nl
  ++ description e ++ nl
  ++ nl
  ++ py "<div className='cover' style={{ backgroundImage: 'url(' + require('./assets/"
  ++ slug e ++ py ".png').default + ')' }} />" ++ nl
  ++ nl
  ++ py "```py" ++ nl
  ++ code e ++ nl
  ++ py "```" ++ nl
  ++ py "        ".

(** [Example.to_md] *)
Definition to_md (e : Example) : str :=
  let '(header, footer) :=
    match keywords e with
    | _ :: _ =>
        let keywords_ :=
          PyStr.join nl (map (fun x => py "  - " ++ x) (keywords e)) in
        let keyword_tags := map keyword_tag (keywords e) in
        let keywords_links := PyStr.join link_sep keyword_tags in
        (py "---" ++ nl
         ++ py "title: " ++ title e ++ nl
         ++ py "keywords:" ++ nl
         ++ keywords_ ++ nl
         ++ py "---" ++ nl
         ++ nl
         ++ py "import useBaseUrl from '@docusaurus/useBaseUrl';" ++ nl
         ++ nl
         ++ py "        ",
         nl
         ++ nl
         ++ py "**Tags**:" ++ link_sep ++ keywords_links ++ nl
         ++ nl
         ++ py "            ")
    | [] =>
        (py "---" ++ nl
         ++ py "title: " ++ title e ++ nl
         ++ py "---" ++ nl
         ++ py "        ",
         [])
    end in
  header ++ to_md_body e ++ footer.

(** [strip_comment] *)
Definition strip_comment (line : str) : str :=
  PyStr.strip_chars (py " #") line.

(** [get_keywords_if_available] *)
Definition get_keywords_if_available (line : str) : list str :=
  let keywords := map PyStr.strip (PyStr.split comma line) in
  let period_in_line := PyStr.contains (py ".") line in
  let spaces_in_keywords := existsb (PyStr.contains (py " ")) keywords in
  if period_in_line || spaces_in_keywords then [] else keywords.

(** [load_example] from the text [read_file] returned (lines 107 to 111). *)
Definition parse_example (filename contents : str) : result Example :=
  let parts := PyStr.split_max1 (py "---") contents in
  parts0 <- getitem parts 0 ;;
  let header := PyStr.splitlines (PyStr.strip parts0) in
  parts1 <- getitem parts 1 ;;
  let code := PyStr.strip parts1 in
  header0 <- getitem header 0 ;;
  let title := strip_comment header0 in
  let description := map strip_comment (tl header) in
  tag_line <- getitem description (-2) ;;
  let keywords := get_keywords_if_available tag_line in
  Ok (Example_init filename title (PyStr.join nl description) keywords code).

(** One item of the list [make_toc] joins. *)
Definition toc_entry (e : Example) : str :=
  py "- <a href={useBaseUrl('docs/examples/" ++ slug e ++ py "')}>"
  ++ title e ++ py "</a>: " ++ subtitle e.

Definition toc_head : str :=
  py "---" ++ nl
  ++ py "title: All Examples" ++ nl
  ++ py "slug: /examples/all" ++ nl
  ++ py "---" ++ nl
  ++ nl
  ++ py "import useBaseUrl from '@docusaurus/useBaseUrl';" ++ nl
  ++ nl.

(** [make_toc] *)
Definition make_toc (examples : list Example) : str :=
  toc_head ++ PyStr.join (nl ++ nl) (map toc_entry examples).

(** [make_gallery_thumbnail] *)
Definition make_gallery_thumbnail (e : Example) : str :=
  py "<a class='thumbnail' href={useBaseUrl('docs/examples/" ++ slug e
  ++ py "')}><div style={{backgroundImage:'url(' + require('./assets/"
  ++ slug e ++ py ".png').default + ')'}}></div>" ++ title e ++ py "</a>".

(** [make_gallery] *)
Definition make_gallery (examples : list Example) : str :=
  (py "---" ++ nl
   ++ py "title: Gallery" ++ nl
   ++ py "slug: /examples" ++ nl
   ++ py "---" ++ nl
   ++ nl
   ++ py "import useBaseUrl from '@docusaurus/useBaseUrl';" ++ nl)
  ++ nl ++ PyStr.join (nl ++ nl) (map make_gallery_thumbnail examples).

(** One entry of [example_links] in [make_keyword_group]. *)
Definition example_link (e : Example) : str :=
  py "<a href={useBaseUrl('docs/examples/" ++ slug e ++ py "')}>"
  ++ title e ++ py "</a>".

(** [make_keyword_group] *)
Definition make_keyword_group (keyword : str) (examples : list Example) : str :=
  let sub_heading := py "### " ++ keyword ++ nl in
  let example_links := map example_link examples in
  sub_heading ++ PyStr.join link_sep example_links ++ nl.

(** [keywords_dict[k].append(e)] on a [defaultdict(list)]; the dict keeps
    its keys in insertion order. *)
Fixpoint dict_append (d : list (str * list Example)) (k : str) (e : Example)
    : list (str * list Example) :=
  match d with
  | [] => [(k, [e])]
  | (k', es) :: d' =>
      if PyStr.eqb k' k then (k', es ++ [e]) :: d'
      else (k', es) :: dict_append d' k e
  end.

(** [sorted] on the items of a dict: the keys differ pairwise, so that the
    comparison of two items is decided by their keys. *)
Fixpoint sorted_insert (x : str * list Example)
    (l : list (str * list Example)) : list (str * list Example) :=
  match l with
  | [] => [x]
  | y :: l' =>
      if PyStr.ltb (fst y) (fst x) then y :: sorted_insert x l' else x :: l
  end.
Definition sorted (l : list (str * list Example)) : list (str * list Example) :=
  fold_right sorted_insert [] l.

(** [index_examples] *)
Definition index_examples (examples : list Example)
    : list (str * list Example) :=
  let keywords_dict :=
    fold_left
      (fun d e => fold_left (fun d k => dict_append d k e) (keywords e) d)
      examples [] in
  sorted keywords_dict.

Definition tags_head : str :=
  py "---" ++ nl
  ++ py "title: Tags" ++ nl
  ++ py "---" ++ nl
  ++ nl
  ++ py "import useBaseUrl from '@docusaurus/useBaseUrl';" ++ nl.

(** [make_examples_by_keyword] *)
Definition make_examples_by_keyword (examples : list Example) : str :=
  let keywords := index_examples examples in
  tags_head ++ nl
  ++ PyStr.join (nl ++ nl)
       (map (fun '(k, e) => make_keyword_group k e) keywords).


(** ** The orchestrator and the file system it runs on *)

(** The file system as [main] sees it: the texts present before the run,
    the writes of the run in order, and the lines printed. *)
Record world : Type := MkWorld {
  files : str -> option str;
  written : list (str * str);
  stdout : list str
}.

(** [read_file]; all reads of [main] precede its writes. *)
Definition read_file (w : world) (p : str) : result str :=
  match files w p with
  | Some txt => Ok txt
  | None => Raise OSError
  end.

(** [read_lines] *)
Definition read_lines (w : world) (p : str) : result (list str) :=
  txt <- read_file w p ;; Ok (PyStr.readlines txt).

(** [write_file], for a path that can be opened for writing: the write is
    recorded.  A write that the file system refuses is not modelled, so that
    the model says nothing of a run that fails while writing. *)
Definition write_file (w : world) (p txt : str) : world :=
  {| files := files w; written := written w ++ [(p, txt)]; stdout := stdout w |}.

Definition print (w : world) (line : str) : world :=
  {| files := files w; written := written w; stdout := stdout w ++ [line] |}.

(** [os.path.exists] *)
Definition path_exists (w : world) (p : str) : bool :=
  existsb (fun f => PyStr.eqb (fst f) p) (written w)
  || match files w p with Some _ => true | None => false end.

Definition dquote : char := 34%N.

Section Main.

(** [example_dir] and [website_dir] are computed from the location of the
    script; [json.dumps] is applied to the list of [dict(slug=...)]
    records, given here by their slugs. *)
Variables example_dir website_dir : str.
Variable json_dumps : list str -> str.

(** [load_example] *)
Definition load_example (w : world) (filename : str) : result Example :=
  contents <- read_file w (PosixPath.join example_dir filename) ;;
  parse_example filename contents.

(** The list [filenames] of [main]. *)
Definition manifest_filenames (lines : list str) : list str :=
  map PyStr.strip
    (filter (fun line => negb (PyStr.startswith (py "#") (PyStr.strip line)))
       lines).

Definition example_md_dir : str :=
  PosixPath.join (PosixPath.join website_dir (py "docs")) (py "examples").
Definition thumbnail_dir : str := PosixPath.join example_md_dir (py "assets").

(** The body of the loop [for e in examples] of [main]. *)
Definition write_example (w : world) (e : Example) : world :=
  let md := to_md e in
  let w := write_file w (PosixPath.join example_md_dir (slug e ++ py ".md")) md in
  if negb (path_exists w (PosixPath.join thumbnail_dir (slug e ++ py ".png")))
  then print w (py "*** ALERT: no thumbnail found for example "
                ++ [dquote] ++ slug e ++ [dquote])
  else w.

(** What [main] writes once every example is loaded. *)
Definition write_all (w : world) (examples : list Example) : world :=
  let w := fold_left write_example examples w in
  let example_items :=
    py "index" :: py "all" :: py "examples-tags" :: map slug examples in
  let w := write_file w (PosixPath.join website_dir (py "examples.js"))
             (py "module.exports=" ++ json_dumps example_items) in
  let w := write_file w (PosixPath.join example_md_dir (py "index.md"))
             (make_gallery examples) in
  let w := write_file w (PosixPath.join example_md_dir (py "all.md"))
             (make_toc examples) in
  write_file w (PosixPath.join example_md_dir (py "examples-tags.md"))
    (make_examples_by_keyword examples).

(** [main] *)
Definition main (w : world) : result unit * world :=
  match
    lines <- read_lines w (PosixPath.join example_dir (py "tour.conf")) ;;
    mapM (load_example w) (manifest_filenames lines)
  with
  | Ok examples => (Ok tt, write_all w examples)
  | Raise e => (Raise e, w)
  end.

End Main.

(** ** A sample run *)

(** A file system with a manifest of two examples, listed against the
    alphabet, and no thumbnail. *)
Definition sample_files (p : str) : option str :=
  if PyStr.eqb p (py "examples/tour.conf") then
    Some (py "# tour" ++ nl ++ py "zebra.py" ++ nl ++ py "apple.py" ++ nl)
  else if PyStr.eqb p (py "examples/zebra.py") then
    Some (py "# Zebra" ++ nl ++ py "# Stripes." ++ nl ++ py "# ---" ++ nl
          ++ py "print('z')" ++ nl)
  else if PyStr.eqb p (py "examples/apple.py") then
    Some (py "# Apple" ++ nl ++ py "# Fruit." ++ nl ++ py "# fruit, red" ++ nl
          ++ py "# ---" ++ nl ++ py "print('a')" ++ nl)
  else None.

Definition sample_world : world :=
  {| files := sample_files; written := []; stdout := [] |}.

(** The text of an example in the layout the generator expects. *)
Definition sample_form : str :=
  py "# Form" ++ nl ++ py "# Use a form to collect data." ++ nl
  ++ py "# form, input" ++ nl ++ py "# ---" ++ nl
  ++ py "from h2o_wave import ui" ++ nl ++ nl ++ py "ui.form_card()" ++ nl.

(** A stand-in for [json.dumps] on the sample run. *)
Definition sample_dumps (slugs : list str) : str :=
  py "[" ++ PyStr.join (py ", ") slugs ++ py "]".

(** ** Notions of the specification *)

(** A separator line in the sense of the specification: once comment
    markers and blanks around it are removed, three or more hyphens and
    nothing else. *)
Definition is_separator_line (line : str) : bool :=
  let l := strip_comment line in
  (3 <=? length l) && forallb (N.eqb hyphen) l.

(** The line of a text that holds position [i], lines being separated by
    line feeds. *)
Fixpoint line_at_go (i : nat) (lines : list str) : str :=
  match lines with
  | [] => []
  | l :: ls => if i <=? length l then l else line_at_go (i - length l - 1) ls
  end.
Definition line_at (i : nat) (s : str) : str := line_at_go i (PyStr.split LF s).

(** The lines of the header region: what [load_example] binds to [header]. *)
Definition header_lines (contents : str) : list str :=
  PyStr.splitlines
    (PyStr.strip (hd [] (PyStr.split_max1 (py "---") contents))).

(** Items of the keyword index in the order of their keys. *)
Definition key_lt (a b : str * list Example) : Prop :=
  PyStr.ltb (fst a) (fst b) = true.

(** The appends of [index_examples], in the order it performs them. *)
Definition keyword_pairs (examples : list Example) : list (str * Example) :=
  flat_map (fun e => map (fun k => (k, e)) (keywords e)) examples.

(** [d[k]], empty for a key not yet in the dict. *)
Fixpoint dict_get (d : list (str * list Example)) (k : str) : list Example :=
  match d with
  | [] => []
  | (k', es) :: d' => if PyStr.eqb k' k then es else dict_get d' k
  end.

(** A page opens with a front-matter block when its first line is the
    [---] delimiter. *)
Definition has_front_matter (page : str) : bool :=
  PyStr.startswith (py "---" ++ nl) page.



Module Markdown.

(** Modelled from the spec: the reader that re-extracts the fenced code
    block of a page.  The spec names this step without defining it and the
    repository has no reader, so fences are read the way Markdown
    (CommonMark) defines fenced code blocks at the top level of a page. *)

(** Line endings: a carriage return, alone or before a line feed, ends a
    line as a line feed does. *)
Fixpoint newlines_go (after_cr : bool) (s : str) : str :=
  match s with
  | [] => []
  | c :: s' =>
      if after_cr && (c =? LF)%N then newlines_go false s'
      else if (c =? CR)%N then LF :: newlines_go true s'
      else c :: newlines_go false s'
  end.
Definition lines (page : str) : list str :=
  PyStr.split LF (newlines_go false page).









End Markdown.



(** A text that neither starts nor ends with a character of the class [p]:
    what [strip] leaves. *)
Definition trimmed_by (p : char -> bool) (s : str) : Prop :=
  (forall c, hd_error s = Some c -> p c = false)
  /\ (forall c, hd_error (rev s) = Some c -> p c = false).

(** The characters [strip_comment] removes. *)
Definition comment_char (c : char) : bool := PyStr.char_in c (py " #").

(** The layout of an example file: the title, the lines of the description
    and the tag line, each behind a comment marker, the separator line, and
    the code. *)
Definition comment_line (l : str) : str := py "# " ++ l ++ nl.
Definition example_source (title_line : str) (lines : list str)
    (tag_line code_text : str) : str :=
  concat (map comment_line (title_line :: lines ++ [tag_line]))
  ++ py "# ---" ++ nl ++ code_text.

(** The line [main] prints for an example without thumbnail. *)
Definition thumbnail_alert (e : Example) : str :=
  py "*** ALERT: no thumbnail found for example "
  ++ [dquote] ++ slug e ++ [dquote].

(** What a path holds once the writes of a run are done: the text of the
    last write to it, or else what was there before.  Paths are compared as
    they are written, which tells files apart when they are plain names in
    one directory; two spellings of one file are not recognised. *)
Definition final_content (w : world) (p : str) : option str :=
  match find (fun f => PyStr.eqb (fst f) p) (rev (written w)) with
  | Some f => Some (snd f)
  | None => files w p
  end.

(** * Properties *)

(** ** Strings *)

Module PyStrFacts.
Import PyStr.

Lemma startswith_nil s : startswith [] s = true.
Proof. destruct s; reflexivity. Qed.

Lemma startswith_app pat s : startswith pat (pat ++ s) = true.
Proof.
  induction pat as [|p pat IH]; simpl.
  - now destruct s.
  - now rewrite N.eqb_refl.
Qed.

Lemma startswith_split pat s :
  startswith pat s = true -> s = pat ++ skipn (length pat) s.
Proof.
  revert s; induction pat as [|p pat IH]; intros [|c s]; simpl; try easy.
  intros H; apply andb_true_iff in H as [E H].
  apply N.eqb_eq in E; subst c. f_equal. now apply IH.
Qed.

Lemma contains_char_In c s : contains [c] s = true <-> In c s.
Proof.
  induction s as [|x s IH]; simpl.
  - split; [discriminate | tauto].
  - rewrite orb_true_iff, IH, andb_true_iff, N.eqb_eq.
    destruct s; intuition congruence.
Qed.

Lemma contains_char_not_In c s : contains [c] s = false <-> ~ In c s.
Proof.
  rewrite <- contains_char_In. destruct (contains [c] s); intuition congruence.
Qed.

Lemma split_no_sep sep s : ~ In sep s -> split sep s = [s].
Proof.
  induction s as [|c s IH]; simpl; intros H; [reflexivity|].
  destruct (N.eqb_spec c sep) as [->|_]; [tauto|].
  rewrite IH by tauto. reflexivity.
Qed.

Lemma split_not_nil sep s : split sep s <> [].
Proof.
  destruct s as [|c s]; simpl; [discriminate|].
  destruct (c =? sep)%N; [discriminate|].
  destruct (split sep s); discriminate.
Qed.

Lemma replace_length old new s : length (replace old new s) = length s.
Proof. apply length_map. Qed.

Lemma replace_idem old new s :
  old <> new -> replace old new (replace old new s) = replace old new s.
Proof.
  intros H. unfold replace. rewrite map_map. apply map_ext. intros c.
  destruct (N.eqb_spec c old) as [->|Hc].
  - destruct (N.eqb_spec new old); congruence.
  - destruct (N.eqb_spec c old); congruence.
Qed.

End PyStrFacts.

(** ** Keyword detection *)

(** C3: the tag line "a, b, c" yields the keywords a, b, c in that order;
    "This is a sentence." and "foo bar, baz" yield no keyword; more
    generally a line that contains a period, or one of whose comma-split,
    whitespace-trimmed tokens contains a space, yields the empty list. *)
Theorem keyword_detection :
  get_keywords_if_available (py "a, b, c") = [py "a"; py "b"; py "c"]
  /\ get_keywords_if_available (py "This is a sentence.") = []
  /\ get_keywords_if_available (py "foo bar, baz") = []
  /\ (forall line, In period line -> get_keywords_if_available line = [])
  /\ (forall line token,
        In token (map PyStr.strip (PyStr.split comma line)) ->
        In space token ->
        get_keywords_if_available line = []).
Proof.
  repeat split; try reflexivity.
  - intros line H. unfold get_keywords_if_available.
    change (py ".") with [period].
    apply PyStrFacts.contains_char_In in H. now rewrite H.
  - intros line token Htok Hsp. unfold get_keywords_if_available.
    change (py " ") with [space].
    replace (existsb _ _) with true; [now rewrite orb_true_r|].
    symmetry. apply existsb_exists. exists token. split; [assumption|].
    now apply PyStrFacts.contains_char_In.
Qed.

Lemma keyword_detection_witness :
  get_keywords_if_available (py "v1.0, beta") = []
  /\ get_keywords_if_available (py "table, data grid") = [].
Proof.
  destruct keyword_detection as (_ & _ & _ & Hperiod & Hspace). split.
  - apply (Hperiod (py "v1.0, beta")). vm_compute. tauto.
  - apply (Hspace (py "table, data grid") (py "data grid")); vm_compute; tauto.
Defined.

(** ** The page of one example *)

(** C5, as stated, fails: an example without keywords is still rendered
    with a front-matter block, the one that holds its title. *)
Lemma to_md_without_keywords_keeps_front_matter :
  keywords (Example_init (py "flex.py") (py "Flex")
              (py "No description available.") [] (py "page.sync()")) = []
  /\ has_front_matter
       (to_md (Example_init (py "flex.py") (py "Flex")
                 (py "No description available.") [] (py "page.sync()")))
     = true
  /\ PyStr.startswith
       (py "---" ++ nl ++ py "title: Flex" ++ nl ++ py "---" ++ nl)
       (to_md (Example_init (py "flex.py") (py "Flex")
                 (py "No description available.") [] (py "page.sync()")))
     = true.
Proof. repeat split; vm_compute; reflexivity. Qed.

(** C5 (amended): every page opens with a front-matter block.  Without
    keywords the block holds the title only and the page ends with the body:
    no keyword list, no import line, no Tags footer.  With keywords the block
    lists them, the import line follows, and the page ends with the Tags
    footer that links each keyword. *)
Theorem to_md_keywords_sections (e : Example) :
  has_front_matter (to_md e) = true
  /\ (keywords e = [] ->
      to_md e =
        (py "---" ++ nl
         ++ py "title: " ++ title e ++ nl
         ++ py "---" ++ nl
         ++ py "        ")
        ++ to_md_body e)
  /\ (keywords e <> [] ->
      to_md e =
        (py "---" ++ nl
         ++ py "title: " ++ title e ++ nl
         ++ py "keywords:" ++ nl
         ++ PyStr.join nl (map (fun k => py "  - " ++ k) (keywords e)) ++ nl
         ++ py "---" ++ nl
         ++ nl
         ++ py "import useBaseUrl from '@docusaurus/useBaseUrl';" ++ nl
         ++ nl
         ++ py "        ")
        ++ to_md_body e
        ++ (nl ++ nl
            ++ py "**Tags**:" ++ [space; ensp]
            ++ PyStr.join [space; ensp]
                 (map (fun k =>
                         py "<a href={useBaseUrl('docs/examples/examples-tags#"
                         ++ k ++ py "')}>" ++ k ++ py "</a>")
                    (keywords e))
            ++ nl ++ nl
            ++ py "            ")).
Proof.
  unfold to_md. destruct (keywords e) as [|k ks] eqn:K.
  - split; [reflexivity|]. split; [|congruence].
    intros _. now rewrite app_nil_r.
  - split; [reflexivity|]. split; [discriminate|].
    intros _. reflexivity.
Qed.

Lemma to_md_keywords_sections_witness :
  to_md (Example_init (py "flex.py") (py "Flex") (py "Boxes") [] (py "pass"))
  = py "---" ++ nl ++ py "title: Flex" ++ nl ++ py "---" ++ nl ++ py "        "
    ++ nl ++ nl ++ py "Boxes" ++ nl ++ nl
    ++ py "<div className='cover' style={{ backgroundImage: 'url(' + require('./assets/flex.png').default + ')' }} />"
    ++ nl ++ nl ++ py "```py" ++ nl ++ py "pass" ++ nl ++ py "```" ++ nl
    ++ py "        "
  /\ PyStr.contains (py "**Tags**:")
       (to_md (Example_init (py "form.py") (py "Form") (py "Fields")
                 [py "form"; py "input"] (py "pass"))) = true.
Proof.
  split.
  - destruct (to_md_keywords_sections
                (Example_init (py "flex.py") (py "Flex") (py "Boxes") []
                   (py "pass"))) as (_ & H & _).
    rewrite H; reflexivity.
  - destruct (to_md_keywords_sections
                (Example_init (py "form.py") (py "Form") (py "Fields")
                   [py "form"; py "input"] (py "pass"))) as (_ & _ & H).
    rewrite H; [reflexivity | discriminate].
Defined.

(** ** The table of contents *)




(** ** Names and slugs *)

Lemma splitext_app p :
  fst (PosixPath.splitext p) ++ snd (PosixPath.splitext p) = p.
Proof.
  unfold PosixPath.splitext.
  destruct (_ <? _)%Z; [destruct (PosixPath.skip_leading_dots _)|]; simpl;
    auto using firstn_skipn, app_nil_r.
Qed.

Lemma splitext_no_ext p :
  snd (PosixPath.splitext p) = [] -> fst (PosixPath.splitext p) = p.
Proof. intros H. generalize (splitext_app p). now rewrite H, app_nil_r. Qed.

(** C9, as stated, fails: the slug of a file name with a dot in its stem
    still has an extension, which a second derivation removes. *)
Lemma slug_rederivation_changes_dotted_slug :
  slug (Example_init (py "plot_v1.5.py") [] [] [] []) = py "plot-v1.5"
  /\ slug (Example_init
             (slug (Example_init (py "plot_v1.5.py") [] [] [] [])) [] [] [] [])
     = py "plot-v1".
Proof. split; vm_compute; reflexivity. Qed.

(** C9 (amended): the slug depends on the file name only: it is the name
    without its extension, underscores replaced by hyphens, so that
    my_example.py yields my-example.  Deriving again from a slug returns it
    unchanged exactly when the slug has no extension of its own. *)
Theorem slug_derivation :
  (forall f t d k c,
      slug (Example_init f t d k c)
      = PyStr.replace underscore hyphen (fst (PosixPath.splitext f)))
  /\ (forall t d k c,
        slug (Example_init (py "my_example.py") t d k c) = py "my-example")
  /\ (forall f t d k c t' d' k' c',
        slug (Example_init (slug (Example_init f t d k c)) t' d' k' c')
        = slug (Example_init f t d k c)
        <-> snd (PosixPath.splitext (slug (Example_init f t d k c))) = []).
Proof.
  split; [reflexivity|]. split; [reflexivity|].
  intros f t d k c t' d' k' c'. simpl.
  set (s := PyStr.replace underscore hyphen (fst (PosixPath.splitext f))).
  split.
  - intros H. apply (f_equal (@length char)) in H.
    rewrite PyStrFacts.replace_length in H.
    generalize (f_equal (@length char) (splitext_app s)).
    rewrite length_app, H.
    destruct (snd (PosixPath.splitext s)); [reflexivity|simpl; lia].
  - intros H. rewrite (splitext_no_ext s H). unfold s.
    apply PyStrFacts.replace_idem. discriminate.
Qed.

Lemma slug_derivation_witness :
  slug (Example_init (slug (Example_init (py "my_example.py") [] [] [] []))
          [] [] [] [])
  = slug (Example_init (py "my_example.py") [] [] [] []).
Proof.
  destruct slug_derivation as (_ & _ & H).
  apply (H (py "my_example.py") [] [] [] [] [] [] [] []). reflexivity.
Defined.

(** ** The manifest and the run *)

Lemma bind_Ok {A B : Type} (m : result A) (k : A -> result B) b :
  bind m k = Ok b -> exists a, m = Ok a /\ k a = Ok b.
Proof. destruct m as [a|e]; simpl; [eauto | discriminate]. Qed.

Ltac inv_bind H :=
  let a := fresh "a" in
  let E := fresh "E" in
  apply bind_Ok in H; destruct H as (a & E & H).

Lemma parse_example_filename fn contents e :
  parse_example fn contents = Ok e -> filename e = fn.
Proof.
  unfold parse_example. intros H. do 4 inv_bind H.
  injection H as <-. reflexivity.
Qed.

Lemma mapM_load_example_filenames example_dir w fns examples :
  mapM (load_example example_dir w) fns = Ok examples ->
  map filename examples = fns.
Proof.
  revert examples; induction fns as [|fn fns IH]; simpl; intros examples H.
  - now injection H as <-.
  - do 2 inv_bind H. injection H as <-. simpl.
    unfold load_example in E. inv_bind E.
    apply parse_example_filename in E. rewrite E. f_equal. now apply IH.
Qed.

Lemma written_write_examples website_dir examples w :
  written (fold_left (write_example website_dir) examples w)
  = written w
    ++ map (fun e =>
              (PosixPath.join (example_md_dir website_dir) (slug e ++ py ".md"),
               to_md e))
         examples.
Proof.
  revert w; induction examples as [|e examples IH]; intros w; simpl.
  - now rewrite app_nil_r.
  - rewrite IH. unfold write_example.
    destruct (negb _); simpl; now rewrite <- app_assoc.
Qed.

(** C6, as stated, fails: a blank line of the manifest is not a comment,
    and stays in the list as an empty file name. *)
Lemma manifest_keeps_blank_lines :
  manifest_filenames
    (PyStr.readlines
       (py "# tour" ++ nl ++ py "hello_world.py" ++ nl ++ nl
        ++ py "flex.py" ++ nl))
  = [py "hello_world.py"; []; py "flex.py"].
Proof. vm_compute; reflexivity. Qed.

(** C6 (amended): the file names are the trimmed lines of the manifest, in
    the order of the manifest, without the lines whose trimmed form starts
    with a hash; a blank line is kept as an empty name.  A run that succeeds
    has loaded one example per name in that order, and has written the
    pages, the gallery, the table of contents and the tag index from that
    list, in that order. *)
Theorem manifest_order_end_to_end :
  (forall l,
      manifest_filenames [l]
      = if PyStr.startswith (py "#") (PyStr.strip l) then []
        else [PyStr.strip l])
  /\ (forall lines1 lines2,
        manifest_filenames (lines1 ++ lines2)
        = manifest_filenames lines1 ++ manifest_filenames lines2)
  /\ (forall example_dir website_dir json_dumps w w',
        main example_dir website_dir json_dumps w = (Ok tt, w') ->
        exists txt examples,
          files w (PosixPath.join example_dir (py "tour.conf")) = Some txt
          /\ mapM (load_example example_dir w)
               (manifest_filenames (PyStr.readlines txt)) = Ok examples
          /\ map filename examples = manifest_filenames (PyStr.readlines txt)
          /\ written w' =
               written w
               ++ map (fun e =>
                         (PosixPath.join (example_md_dir website_dir)
                            (slug e ++ py ".md"),
                          to_md e))
                    examples
               ++ [(PosixPath.join website_dir (py "examples.js"),
                    py "module.exports="
                    ++ json_dumps (py "index" :: py "all"
                                   :: py "examples-tags" :: map slug examples));
                   (PosixPath.join (example_md_dir website_dir) (py "index.md"),
                    make_gallery examples);
                   (PosixPath.join (example_md_dir website_dir) (py "all.md"),
                    make_toc examples);
                   (PosixPath.join (example_md_dir website_dir)
                      (py "examples-tags.md"),
                    make_examples_by_keyword examples)]).
Proof.
  split; [|split].
  - intros l. unfold manifest_filenames. cbn [filter].
    now destruct (PyStr.startswith (py "#") (PyStr.strip l)).
  - intros lines1 lines2. unfold manifest_filenames.
    now rewrite filter_app, map_app.
  - intros example_dir website_dir json_dumps w w'. unfold main.
    destruct (bind _ _) as [examples|e] eqn:H; [|discriminate].
    intros [= <-]. inv_bind H. unfold read_lines in E. inv_bind E.
    injection E as <-. unfold read_file in E0.
    destruct (files w _) as [txt|] eqn:F; [|discriminate].
    injection E0 as <-. exists txt, examples.
    split; [reflexivity|]. split; [exact H|]. split.
    + now apply mapM_load_example_filenames in H.
    + unfold write_all, write_file; simpl.
      rewrite written_write_examples.
      repeat rewrite <- app_assoc. reflexivity.
Qed.

Lemma manifest_order_end_to_end_witness :
  main (py "examples") (py "website") sample_dumps sample_world
  = (Ok tt, snd (main (py "examples") (py "website") sample_dumps sample_world))
  /\ exists txt examples,
       files sample_world (PosixPath.join (py "examples") (py "tour.conf"))
       = Some txt
       /\ mapM (load_example (py "examples") sample_world)
            (manifest_filenames (PyStr.readlines txt)) = Ok examples
       /\ map filename examples = manifest_filenames (PyStr.readlines txt)
       /\ map fst
            (written
               (snd (main (py "examples") (py "website") sample_dumps
                       sample_world)))
          = [py "website/docs/examples/zebra.md";
             py "website/docs/examples/apple.md";
             py "website/examples.js";
             py "website/docs/examples/index.md";
             py "website/docs/examples/all.md";
             py "website/docs/examples/examples-tags.md"].
Proof.
  split; [vm_compute; reflexivity|].
  destruct manifest_order_end_to_end as (_ & _ & H).
  destruct (H (py "examples") (py "website") sample_dumps sample_world
              (snd (main (py "examples") (py "website") sample_dumps
                      sample_world)))
    as (txt & examples & Hf & Hm & Hn & Hw); [vm_compute; reflexivity|].
  exists txt, examples. repeat (split; [assumption|]).
  vm_compute in Hf. injection Hf as <-.
  vm_compute in Hm. injection Hm as <-.
  vm_compute. reflexivity.
Defined.

(** ** The keyword index *)

Module PyStrOrder.
Import PyStr.

Lemma eqb_eq a b : eqb a b = true <-> a = b.
Proof.
  revert b; induction a as [|x a IH]; intros [|y b]; simpl;
    try (split; congruence).
  rewrite andb_true_iff, N.eqb_eq, IH. split.
  - intros [-> ->]; reflexivity.
  - intros [= -> ->]; auto.
Qed.

Lemma eqb_refl a : eqb a a = true.
Proof. now apply eqb_eq. Qed.

Lemma eqb_neq a b : eqb a b = false <-> a <> b.
Proof. rewrite <- eqb_eq. destruct (eqb a b); intuition congruence. Qed.

Lemma compare_eq a b : compare a b = Eq -> a = b.
Proof.
  revert b; induction a as [|x a IH]; intros [|y b]; simpl; try congruence.
  destruct (N.compare_spec x y) as [Hxy|Hxy|Hxy]; try discriminate.
  intros Hab; subst; f_equal; auto.
Qed.

Lemma compare_antisym a b : compare b a = CompOpp (compare a b).
Proof.
  revert b; induction a as [|x a IH]; intros [|y b]; simpl; try reflexivity.
  rewrite (N.compare_antisym x y).
  destruct (x ?= y)%N; simpl; auto.
Qed.

Lemma compare_lt_trans a b c :
  compare a b = Lt -> compare b c = Lt -> compare a c = Lt.
Proof.
  revert b c; induction a as [|x a IH]; intros [|y b] [|z c]; simpl;
    try congruence.
  destruct (N.compare_spec x y) as [Hxy|Hxy|Hxy],
           (N.compare_spec y z) as [Hyz|Hyz|Hyz]; try discriminate;
    subst; intros H1 H2.
  - rewrite N.compare_refl; eauto.
  - now apply N.compare_lt_iff in Hyz as ->.
  - now apply N.compare_lt_iff in Hxy as ->.
  - assert (x < z)%N as ->%N.compare_lt_iff by lia. reflexivity.
Qed.

Lemma ltb_trans a b c : ltb a b = true -> ltb b c = true -> ltb a c = true.
Proof.
  unfold ltb. intros H1 H2.
  destruct (compare a b) eqn:E1; try discriminate.
  destruct (compare b c) eqn:E2; try discriminate.
  now rewrite (compare_lt_trans _ _ _ E1 E2).
Qed.

Lemma ltb_irrefl a : ltb a a = false.
Proof.
  unfold ltb. destruct (compare a a) eqn:E; try reflexivity.
  generalize (compare_antisym a a). rewrite E. discriminate.
Qed.

Lemma ltb_connex a b : ltb a b = false -> a <> b -> ltb b a = true.
Proof.
  unfold ltb. rewrite (compare_antisym a b).
  destruct (compare a b) eqn:E; simpl; try congruence.
  intros _ H. now apply compare_eq in E.
Qed.

End PyStrOrder.

Section Index.

Lemma sorted_insert_perm x l : Permutation (sorted_insert x l) (x :: l).
Proof.
  induction l as [|y l IH]; simpl; [reflexivity|].
  destruct (PyStr.ltb (fst y) (fst x)); [|reflexivity].
  rewrite IH. apply perm_swap.
Qed.

Lemma sorted_insert_sorted x l :
  StronglySorted key_lt l ->
  ~ In (fst x) (map fst l) ->
  StronglySorted key_lt (sorted_insert x l).
Proof.
  induction l as [|y l IH]; simpl; intros Hs Hx.
  - repeat constructor.
  - apply StronglySorted_inv in Hs as [Hs Hy].
    destruct (PyStr.ltb (fst y) (fst x)) eqn:E.
    + constructor; [apply IH; tauto|].
      rewrite (sorted_insert_perm x l). now constructor.
    + assert (key_lt x y) as Hxy.
      { apply PyStrOrder.ltb_connex; [assumption|]. intuition congruence. }
      constructor; [now constructor|]. constructor; [assumption|].
      eapply Forall_impl; [|exact Hy].
      intros z Hz. eapply PyStrOrder.ltb_trans; eassumption.
Qed.

Lemma sorted_perm l : Permutation (sorted l) l.
Proof.
  induction l as [|x l IH]; simpl; [reflexivity|].
  now rewrite sorted_insert_perm, IH.
Qed.

Lemma sorted_sorted l :
  NoDup (map fst l) -> StronglySorted key_lt (sorted l).
Proof.
  induction l as [|x l IH]; simpl; intros H; [constructor|].
  inversion H as [|? ? Hx Hl]; subst.
  apply sorted_insert_sorted; [auto|].
  intros Hin. apply Hx.
  eapply Permutation_in; [apply Permutation_map, sorted_perm|exact Hin].
Qed.

Lemma index_fold_pairs examples d :
  fold_left
    (fun d e => fold_left (fun d k => dict_append d k e) (keywords e) d)
    examples d
  = fold_left (fun d p => dict_append d (fst p) (snd p))
      (keyword_pairs examples) d.
Proof.
  revert d; induction examples as [|e examples IH]; intros d; simpl;
    [reflexivity|].
  unfold keyword_pairs in *. rewrite fold_left_app, <- IH. f_equal.
  generalize (keywords e) d. clear.
  induction l as [|k ks IH]; intros d; simpl; [reflexivity|apply IH].
Qed.

Lemma dict_append_keys d k e q :
  In q (map fst (dict_append d k e)) <-> q = k \/ In q (map fst d).
Proof.
  induction d as [|[k' es] d IH]; simpl.
  - intuition.
  - destruct (PyStr.eqb k' k) eqn:E; simpl.
    + apply PyStrOrder.eqb_eq in E. subst. intuition.
    + rewrite IH. intuition.
Qed.

Lemma dict_append_NoDup d k e :
  NoDup (map fst d) -> NoDup (map fst (dict_append d k e)).
Proof.
  induction d as [|[k' es] d IH]; simpl; intros H.
  - repeat constructor. intros [].
  - inversion H as [|? ? Hk' Hd]; subst.
    destruct (PyStr.eqb k' k) eqn:E; simpl.
    + now constructor.
    + constructor; [|auto]. rewrite dict_append_keys.
      apply PyStrOrder.eqb_neq in E. intuition.
Qed.

Lemma dict_get_append d k e q :
  dict_get (dict_append d k e) q
  = if PyStr.eqb k q then dict_get d q ++ [e] else dict_get d q.
Proof.
  induction d as [|[k' es] d IH]; simpl.
  - now destruct (PyStr.eqb k q).
  - destruct (PyStr.eqb k' k) eqn:E; simpl.
    + apply PyStrOrder.eqb_eq in E. subst k'. now destruct (PyStr.eqb k q).
    + rewrite IH. destruct (PyStr.eqb k' q) eqn:E'; [|reflexivity].
      apply PyStrOrder.eqb_eq in E'. subst k'.
      assert (PyStr.eqb k q = false) as ->; [|reflexivity].
      apply PyStrOrder.eqb_neq. apply PyStrOrder.eqb_neq in E. congruence.
Qed.

Lemma dict_get_In d k es :
  NoDup (map fst d) -> In (k, es) d -> dict_get d k = es.
Proof.
  induction d as [|[k' es'] d IH]; simpl; intros H Hin; [tauto|].
  inversion H as [|? ? Hk' Hd]; subst.
  destruct Hin as [[= -> ->]|Hin].
  - now rewrite PyStrOrder.eqb_refl.
  - destruct (PyStr.eqb k' k) eqn:E; [|auto].
    apply PyStrOrder.eqb_eq in E. subst k'. exfalso. apply Hk'.
    now apply (in_map fst) in Hin.
Qed.

(** What the dict holds once the appends [pairs] are done. *)
Lemma dict_build pairs :
  let d := fold_left (fun d p => dict_append d (fst p) (snd p)) pairs [] in
  NoDup (map fst d)
  /\ (forall k, In k (map fst d) <-> In k (map fst pairs))
  /\ (forall k,
        dict_get d k
        = map snd (filter (fun p => PyStr.eqb (fst p) k) pairs)).
Proof.
  induction pairs as [|[k e] pairs IH] using rev_ind; simpl.
  - split; [constructor|]. split; [tauto|reflexivity].
  - rewrite fold_left_app. simpl. destruct IH as (Hnd & Hkeys & Hget).
    split; [now apply dict_append_NoDup|]. split.
    + intros q. rewrite dict_append_keys, Hkeys, map_app, in_app_iff.
      simpl. intuition.
    + intros q. rewrite dict_get_append, Hget, filter_app, map_app. simpl.
      destruct (PyStr.eqb k q); simpl; [reflexivity|now rewrite app_nil_r].
Qed.

Lemma keyword_pairs_keys examples k :
  In k (map fst (keyword_pairs examples))
  <-> exists e, In e examples /\ In k (keywords e).
Proof.
  unfold keyword_pairs. rewrite in_map_iff. split.
  - intros ([k' e] & <- & H). apply in_flat_map in H as (e' & He' & H).
    apply in_map_iff in H as (k'' & [= <- <-] & H). eauto.
  - intros (e & He & Hk). exists (k, e). split; [reflexivity|].
    apply in_flat_map. exists e. split; [assumption|].
    apply in_map_iff. eauto.
Qed.

Lemma keyword_pairs_select examples k :
  map snd (filter (fun p => PyStr.eqb (fst p) k) (keyword_pairs examples))
  = flat_map
      (fun e => repeat e (length (filter (PyStr.eqb k) (keywords e))))
      examples.
Proof.
  unfold keyword_pairs.
  induction examples as [|e examples IH]; simpl; [reflexivity|].
  rewrite filter_app, map_app, IH. f_equal.
  induction (keywords e) as [|k' ks IHk]; simpl; [reflexivity|].
  replace (PyStr.eqb k k') with (PyStr.eqb k' k).
  - destruct (PyStr.eqb k' k); simpl; now rewrite IHk.
  - destruct (PyStr.eqb k' k) eqn:E1, (PyStr.eqb k k') eqn:E2;
      try reflexivity.
    + apply PyStrOrder.eqb_eq in E1. apply PyStrOrder.eqb_neq in E2.
      congruence.
    + apply PyStrOrder.eqb_eq in E2. apply PyStrOrder.eqb_neq in E1.
      congruence.
Qed.

End Index.

(** C7: the tag index has one group per keyword that some example carries,
    the groups in strictly increasing code-point order of their keywords;
    the group of a keyword lists the examples in the order of the input,
    one link for each time the example names the keyword, which for
    keywords named once is the sub-list of the examples that carry it.  For
    a first example with the keywords x and y and a second one with y, the
    group x links the first only, the group y links both, and x comes
    first. *)
Theorem tag_index_groups :
  (forall examples,
      StronglySorted key_lt (index_examples examples)
      /\ NoDup (map fst (index_examples examples))
      /\ (forall k,
            In k (map fst (index_examples examples))
            <-> exists e, In e examples /\ In k (keywords e))
      /\ (forall k es,
            In (k, es) (index_examples examples) ->
            es = flat_map
                   (fun e =>
                      repeat e (length (filter (PyStr.eqb k) (keywords e))))
                   examples)
      /\ make_examples_by_keyword examples
         = tags_head ++ nl
           ++ PyStr.join (nl ++ nl)
                (map (fun item =>
                        py "### " ++ fst item ++ nl
                        ++ PyStr.join [space; ensp]
                             (map (fun e =>
                                     py "<a href={useBaseUrl('docs/examples/"
                                     ++ slug e ++ py "')}>" ++ title e
                                     ++ py "</a>")
                                (snd item))
                        ++ nl)
                   (index_examples examples)))
  /\ make_examples_by_keyword
       [Example_init (py "one.py") (py "One") (py "First.")
          [py "x"; py "y"] (py "pass");
        Example_init (py "two.py") (py "Two") (py "Second.")
          [py "y"] (py "pass")]
     = tags_head ++ nl
       ++ py "### x" ++ nl
       ++ py "<a href={useBaseUrl('docs/examples/one')}>One</a>" ++ nl
       ++ nl ++ nl
       ++ py "### y" ++ nl
       ++ py "<a href={useBaseUrl('docs/examples/one')}>One</a>"
       ++ [space; ensp]
       ++ py "<a href={useBaseUrl('docs/examples/two')}>Two</a>" ++ nl.
Proof.
  split; [|vm_compute; reflexivity].
  intros examples. unfold index_examples. rewrite index_fold_pairs.
  destruct (dict_build (keyword_pairs examples)) as (Hnd & Hkeys & Hget).
  set (d := fold_left _ _ _) in *.
  assert (Permutation (map fst (sorted d)) (map fst d)) as Hperm
    by apply Permutation_map, sorted_perm.
  split; [now apply sorted_sorted|].
  split; [now apply (Permutation_NoDup (Permutation_sym Hperm))|].
  split; [|split].
  - intros k. rewrite <- keyword_pairs_keys, <- Hkeys.
    split; apply Permutation_in; [assumption|now apply Permutation_sym].
  - intros k es Hin. rewrite <- keyword_pairs_select, <- Hget.
    symmetry. apply dict_get_In; [assumption|].
    eapply Permutation_in; [apply sorted_perm|exact Hin].
  - unfold make_examples_by_keyword, index_examples.
    rewrite index_fold_pairs. fold d. do 3 f_equal.
    apply map_ext. intros [k es].
    unfold make_keyword_group, example_link, link_sep. simpl fst. simpl snd.
    now rewrite <- !app_assoc.
Qed.

Lemma tag_index_groups_witness :
  In (py "y",
      [Example_init (py "two.py") (py "Two") (py "Second.") [py "y"] [];
       Example_init (py "one.py") (py "One") (py "First.")
         [py "x"; py "y"] []])
    (index_examples
       [Example_init (py "two.py") (py "Two") (py "Second.") [py "y"] [];
        Example_init (py "one.py") (py "One") (py "First.")
          [py "x"; py "y"] []])
  /\ forall es,
       In (py "y", es)
         (index_examples
            [Example_init (py "two.py") (py "Two") (py "Second.") [py "y"] [];
             Example_init (py "one.py") (py "One") (py "First.")
               [py "x"; py "y"] []]) ->
       map title es = [py "Two"; py "One"].
Proof.
  split; [vm_compute; tauto|].
  intros es Hin.
  destruct tag_index_groups as (H & _).
  destruct (H [Example_init (py "two.py") (py "Two") (py "Second.")
                 [py "y"] [];
               Example_init (py "one.py") (py "One") (py "First.")
                 [py "x"; py "y"] []]) as (_ & _ & _ & Hes & _).
  rewrite (Hes _ _ Hin). reflexivity.
Defined.

(** ** Parsing an example *)

Module PartitionFacts.
Import PyStr.

Lemma partition_eq sep s :
  partition sep s
  = if startswith sep s then Some ([], skipn (length sep) s)
    else match s with
         | [] => None
         | c :: s' =>
             match partition sep s' with
             | Some (a, b) => Some (c :: a, b)
             | None => None
             end
         end.
Proof. destruct s; reflexivity. Qed.

Lemma contains_eq pat s :
  contains pat s
  = startswith pat s
    || match s with [] => false | _ :: s' => contains pat s' end.
Proof. destruct s; reflexivity. Qed.

Lemma partition_Some sep s a b :
  partition sep s = Some (a, b) ->
  s = a ++ sep ++ b
  /\ forall i, i < length a -> startswith sep (skipn i s) = false.
Proof.
  revert a b; induction s as [|c s IH]; intros a b; rewrite partition_eq.
  - destruct (startswith sep []) eqn:E; [|discriminate].
    intros [= <- <-]. split; [|simpl; lia].
    now apply PyStrFacts.startswith_split in E.
  - destruct (startswith sep (c :: s)) eqn:E.
    + intros [= <- <-]. split; [|simpl; lia].
      now apply PyStrFacts.startswith_split in E.
    + destruct (partition sep s) as [[a' b']|] eqn:P; [|discriminate].
      intros [= <- <-]. destruct (IH a' b' eq_refl) as [-> Hfirst].
      split; [reflexivity|]. intros [|i] Hi; [exact E|].
      change (skipn (S i) (c :: a' ++ sep ++ b'))
        with (skipn i (a' ++ sep ++ b')).
      apply Hfirst. simpl in Hi. lia.
Qed.

Lemma partition_None sep s :
  partition sep s = None <-> contains sep s = false.
Proof.
  induction s as [|c s IH]; rewrite partition_eq, contains_eq.
  - destruct (startswith sep []); simpl; split; congruence.
  - destruct (startswith sep (c :: s)); simpl; [split; congruence|].
    rewrite <- IH. destruct (partition sep s) as [[a b]|]; split; congruence.
Qed.

(** A separator whose first character occurs nowhere before it is found
    where it stands. *)
Lemma partition_fresh_head c0 rest a b :
  ~ In c0 a ->
  partition (c0 :: rest) (a ++ (c0 :: rest) ++ b) = Some (a, b).
Proof.
  induction a as [|x a IH]; intros Ha.
  - change ([] ++ (c0 :: rest) ++ b) with ((c0 :: rest) ++ b).
    rewrite partition_eq, PyStrFacts.startswith_app.
    now rewrite skipn_app, skipn_all, Nat.sub_diag.
  - change ((x :: a) ++ (c0 :: rest) ++ b)
      with (x :: a ++ (c0 :: rest) ++ b).
    rewrite partition_eq.
    assert (startswith (c0 :: rest) (x :: a ++ (c0 :: rest) ++ b) = false)
      as ->.
    { simpl. destruct (N.eqb_spec c0 x) as [->|_]; [|reflexivity].
      simpl in Ha. tauto. }
    rewrite IH; [reflexivity|]. simpl in Ha. tauto.
Qed.

End PartitionFacts.

Lemma getitem_raises {A : Type} (l : list A) i e :
  getitem l i = Raise e -> e = IndexError.
Proof.
  unfold getitem. destruct (_ <? 0)%Z; [congruence|].
  destruct (nth_error _ _); congruence.
Qed.

Lemma getitem_second_to_last {A : Type} (l : list A) :
  (exists x, getitem l (-2) = Ok x) <-> 2 <= length l.
Proof.
  unfold getitem. cbv zeta. change (-2 <? 0)%Z with true. cbv iota.
  destruct (Z.ltb_spec (-2 + Z.of_nat (length l)) 0) as [Hlt|Hge].
  - split; [intros [x H]; discriminate | lia].
  - destruct (nth_error l (Z.to_nat (-2 + Z.of_nat (length l)))) as [x|] eqn:E.
    + split; [lia|eauto].
    + apply nth_error_None in E. lia.
Qed.

(** [parse_example] by cases on the split and on the header. *)
Lemma parse_example_eq filename contents :
  parse_example filename contents
  = match PyStr.partition (py "---") contents with
    | None => Raise IndexError
    | Some (header_region, code_region) =>
        match PyStr.splitlines (PyStr.strip header_region) with
        | [] => Raise IndexError
        | title_line :: rest =>
            tag_line <- getitem (map strip_comment rest) (-2) ;;
            Ok (Example_init filename (strip_comment title_line)
                  (PyStr.join nl (map strip_comment rest))
                  (get_keywords_if_available tag_line)
                  (PyStr.strip code_region))
        end
    end.
Proof.
  unfold parse_example, PyStr.split_max1.
  destruct (PyStr.partition (py "---") contents) as [[h cr]|]; [|reflexivity].
  change (getitem [h; cr] 0) with (Ok h).
  change (getitem [h; cr] 1) with (Ok cr). cbn [bind].
  destruct (PyStr.splitlines (PyStr.strip h)) as [|t rest]; reflexivity.
Qed.

(** C1, as stated, fails: the text is cut at the first three hyphens
    wherever they stand, here inside a line of prose, and what follows on
    that line opens the code. *)
Lemma split_point_inside_a_line :
  PyStr.split_max1 (py "---")
    (py "# Title" ++ nl ++ py "# Text" ++ nl ++ py "# see a---b" ++ nl
     ++ py "# tag" ++ nl ++ py "# ---" ++ nl ++ py "x = 1" ++ nl)
  = [py "# Title" ++ nl ++ py "# Text" ++ nl ++ py "# see a";
     py "b" ++ nl ++ py "# tag" ++ nl ++ py "# ---" ++ nl ++ py "x = 1" ++ nl]
  /\ line_at (length (py "# Title" ++ nl ++ py "# Text" ++ nl ++ py "# see a"))
       (py "# Title" ++ nl ++ py "# Text" ++ nl ++ py "# see a---b" ++ nl
        ++ py "# tag" ++ nl ++ py "# ---" ++ nl ++ py "x = 1" ++ nl)
     = py "# see a---b"
  /\ is_separator_line (py "# see a---b") = false
  /\ exists e,
       parse_example (py "cut.py")
         (py "# Title" ++ nl ++ py "# Text" ++ nl ++ py "# see a---b" ++ nl
          ++ py "# tag" ++ nl ++ py "# ---" ++ nl ++ py "x = 1" ++ nl) = Ok e
       /\ code e = py "b" ++ nl ++ py "# tag" ++ nl ++ py "# ---" ++ nl
                   ++ py "x = 1".
Proof.
  repeat split; try (vm_compute; reflexivity).
  eexists. split; vm_compute; reflexivity.
Qed.

(** C1 (amended): every text is cut at the first occurrence of three
    hyphens, wherever it stands: the header region is what precedes it, the
    code region what follows it; a text without three hyphens is not cut and
    does not parse.  When the text parses, the title and the description are
    read from the lines of the trimmed header region, and the code is the
    trimmed code region. *)
Theorem parse_example_splits_at_first_hyphens filename contents :
  (PyStr.contains (py "---") contents = false
   /\ PyStr.split_max1 (py "---") contents = [contents]
   /\ parse_example filename contents = Raise IndexError)
  \/ (exists header_region code_region,
        PyStr.split_max1 (py "---") contents = [header_region; code_region]
        /\ contents = header_region ++ py "---" ++ code_region
        /\ (forall i, i < length header_region ->
                      PyStr.startswith (py "---") (skipn i contents) = false)
        /\ forall e,
             parse_example filename contents = Ok e ->
             title e
             = strip_comment
                 (hd [] (PyStr.splitlines (PyStr.strip header_region)))
             /\ description e
                = PyStr.join nl
                    (map strip_comment
                       (tl (PyStr.splitlines (PyStr.strip header_region))))
             /\ code e = PyStr.strip code_region).
Proof.
  rewrite parse_example_eq. unfold PyStr.split_max1.
  destruct (PyStr.partition (py "---") contents) as [[h cr]|] eqn:P.
  - right. apply PartitionFacts.partition_Some in P as [Happ Hfirst].
    exists h, cr. repeat (split; [assumption || reflexivity|]).
    intros e H.
    destruct (PyStr.splitlines (PyStr.strip h)) as [|t rest];
      [discriminate|].
    inv_bind H. injection H as <-. repeat split.
  - left. apply PartitionFacts.partition_None in P. now rewrite P.
Qed.

Lemma parse_example_splits_at_first_hyphens_witness :
  PyStr.split_max1 (py "---") sample_form
  = [py "# Form" ++ nl ++ py "# Use a form to collect data." ++ nl
     ++ py "# form, input" ++ nl ++ py "# ";
     nl ++ py "from h2o_wave import ui" ++ nl ++ nl ++ py "ui.form_card()"
     ++ nl]
  /\ exists e,
       parse_example (py "form.py") sample_form = Ok e
       /\ title e = py "Form"
       /\ description e
          = py "Use a form to collect data." ++ nl ++ py "form, input" ++ nl
       /\ code e
          = py "from h2o_wave import ui" ++ nl ++ nl ++ py "ui.form_card()".
Proof.
  split; [vm_compute; reflexivity|].
  destruct (parse_example_splits_at_first_hyphens (py "form.py") sample_form)
    as [(Hnone & _)|(h & cr & Hsplit & _ & _ & Hparse)];
    [vm_compute in Hnone; discriminate|].
  vm_compute in Hsplit. injection Hsplit as <- <-.
  eexists. split; [vm_compute; reflexivity|].
  destruct (Hparse _ ltac:(vm_compute; reflexivity)) as (Ht & Hd & Hc).
  rewrite Ht, Hd, Hc. repeat split; vm_compute; reflexivity.
Defined.

(** C4, as stated, fails: with a separator and a header of two lines the
    description has a single line, and reading its second-to-last line
    raises. *)
Lemma two_line_header_fails :
  PyStr.contains (py "---")
    (py "# Title" ++ nl ++ py "# Text" ++ nl ++ py "---" ++ nl ++ py "x = 1")
  = true
  /\ header_lines
       (py "# Title" ++ nl ++ py "# Text" ++ nl ++ py "---" ++ nl ++ py "x = 1")
     = [py "# Title"; py "# Text"]
  /\ parse_example (py "short.py")
       (py "# Title" ++ nl ++ py "# Text" ++ nl ++ py "---" ++ nl ++ py "x = 1")
     = Raise IndexError.
Proof. repeat split; vm_compute; reflexivity. Qed.

(** C4 (amended): parsing succeeds exactly when the text contains three
    hyphens and the trimmed header region before the first of them has at
    least three lines (a title and two lines of description, the first of
    which is read for keywords); in every other case it raises an index
    error. *)
Theorem parse_example_succeeds_iff filename contents :
  ((exists e, parse_example filename contents = Ok e)
   <-> PyStr.contains (py "---") contents = true
       /\ 3 <= length (header_lines contents))
  /\ (forall x, parse_example filename contents = Raise x -> x = IndexError).
Proof.
  rewrite parse_example_eq. unfold header_lines, PyStr.split_max1.
  generalize (PartitionFacts.partition_None (py "---") contents).
  destruct (PyStr.partition (py "---") contents) as [[h cr]|]; intros Hc.
  - assert (PyStr.contains (py "---") contents = true) as ->.
    { destruct (PyStr.contains _ contents); [reflexivity|].
      destruct Hc as [_ Hc]. discriminate (Hc eq_refl). }
    cbn [hd].
    destruct (PyStr.splitlines (PyStr.strip h)) as [|t rest].
    + split; [|congruence]. simpl.
      split; [intros [e H]; discriminate | lia].
    + split.
      * cbn [length]. rewrite <- (length_map strip_comment rest).
        rewrite <- Nat.succ_le_mono, <- getitem_second_to_last.
        split.
        -- intros [e H]. inv_bind H. split; [reflexivity | eauto].
        -- intros [_ [x H]]. rewrite H. simpl. eauto.
      * intros x H.
        destruct (getitem (map strip_comment rest) (-2)) eqn:G;
          [discriminate|].
        apply getitem_raises in G. simpl in H. congruence.
  - destruct Hc as [Hc _]. rewrite (Hc eq_refl). split; [|congruence].
    split; [intros [e H]; discriminate | intros [H _]; discriminate].
Qed.

Lemma parse_example_succeeds_iff_witness :
  exists e,
    parse_example (py "flex.py")
      (py "# Flex" ++ nl ++ py "# No description available." ++ nl
       ++ py "# ---" ++ nl ++ py "import random" ++ nl) = Ok e.
Proof.
  apply (parse_example_succeeds_iff (py "flex.py")
           (py "# Flex" ++ nl ++ py "# No description available." ++ nl
            ++ py "# ---" ++ nl ++ py "import random" ++ nl)).
  split; [vm_compute; reflexivity | vm_compute; lia].
Defined.

Lemma getitem_second_to_last_rev {A : Type} (l : list A) x :
  getitem l (-2) = Ok x -> nth_error (rev l) 1 = Some x.
Proof.
  unfold getitem. cbv zeta. change (-2 <? 0)%Z with true. cbv iota.
  destruct (Z.ltb_spec (-2 + Z.of_nat (length l)) 0) as [Hlt|Hge];
    [discriminate|].
  destruct (nth_error l (Z.to_nat (-2 + Z.of_nat (length l)))) as [y|] eqn:E;
    [|discriminate].
  intros [= <-]. rewrite nth_error_rev.
  destruct (Nat.ltb_spec 1 (length l)) as [_|H]; [|lia].
  rewrite <- E. f_equal. lia.
Qed.

(** C10: a tag line without comma and period whose trimmed form has no
    space yields the one-element list of its trimmed form; the empty line
    yields the list holding the empty keyword, and a page rendered with
    that list carries a keyword entry in its front matter and a Tags footer
    whose link is the one of the empty keyword.  The keywords of an example
    that was parsed are those of the second-to-last line of its description,
    so that they are this list whenever that line is blank. *)
Theorem blank_tag_line_is_a_keyword :
  (forall line,
      ~ In comma line -> ~ In period line -> ~ In space (PyStr.strip line) ->
      get_keywords_if_available line = [PyStr.strip line])
  /\ get_keywords_if_available [] = [[]]
  /\ (forall e, keywords e = [[]] ->
        to_md e =
          (py "---" ++ nl
           ++ py "title: " ++ title e ++ nl
           ++ py "keywords:" ++ nl
           ++ py "  - " ++ nl
           ++ py "---" ++ nl
           ++ nl
           ++ py "import useBaseUrl from '@docusaurus/useBaseUrl';" ++ nl
           ++ nl
           ++ py "        ")
          ++ to_md_body e
          ++ (nl ++ nl
              ++ py "**Tags**:" ++ [space; ensp]
              ++ py "<a href={useBaseUrl('docs/examples/examples-tags#')}></a>"
              ++ nl ++ nl
              ++ py "            "))
  /\ (exists e,
        parse_example (py "blank.py")
          (py "# Title" ++ nl ++ py "# Summary" ++ nl ++ py "#" ++ nl
           ++ py "# ---" ++ nl ++ py "x = 1" ++ nl) = Ok e
        /\ keywords e = [[]])
  /\ (forall filename contents e,
        parse_example filename contents = Ok e ->
        exists tag_line,
          nth_error (rev (map strip_comment (tl (header_lines contents)))) 1
          = Some tag_line
          /\ keywords e = get_keywords_if_available tag_line
          /\ (tag_line = [] -> keywords e = [[]])).
Proof.
  split; [|split; [reflexivity|split; [|split]]].
  - intros line Hc Hp Hs. unfold get_keywords_if_available.
    change (py ".") with [period]. change (py " ") with [space].
    rewrite PyStrFacts.split_no_sep by assumption. simpl.
    apply PyStrFacts.contains_char_not_In in Hp, Hs. now rewrite Hp, Hs.
  - intros e H. unfold to_md. rewrite H. simpl PyStr.join.
    unfold keyword_tag, link_sep. simpl.
    repeat (rewrite <- ?app_assoc; simpl). reflexivity.
  - eexists. split; vm_compute; reflexivity.
  - intros filename contents e H. rewrite parse_example_eq in H.
    unfold header_lines, PyStr.split_max1.
    destruct (PyStr.partition (py "---") contents) as [[h cr]|];
      [|discriminate].
    cbn [hd].
    destruct (PyStr.splitlines (PyStr.strip h)) as [|t rest]; [discriminate|].
    inv_bind H. injection H as <-. exists a. cbn [tl keywords Example_init].
    split; [now apply getitem_second_to_last_rev|].
    split; [reflexivity|]. now intros ->.
Qed.

Lemma blank_tag_line_is_a_keyword_witness :
  (exists e,
      parse_example (py "blank.py")
        (py "# Title" ++ nl ++ py "#" ++ nl ++ py "# last line" ++ nl
         ++ py "---" ++ nl ++ py "x = 1") = Ok e
      /\ description e = nl ++ py "last line"
      /\ keywords e = [[]])
  /\ get_keywords_if_available (py "  table") = [py "table"]
  /\ (exists page,
        to_md (Example_init (py "blank.py") (py "Title") (py "Summary")
                 [[]] (py "x = 1")) = page
        /\ PyStr.contains (py "keywords:" ++ nl ++ py "  - " ++ nl) page = true
        /\ PyStr.contains
             (py "**Tags**:" ++ [space; ensp]
              ++ py "<a href={useBaseUrl('docs/examples/examples-tags#')}></a>")
             page = true).
Proof.
  destruct blank_tag_line_is_a_keyword as (Hline & _ & Hpage & _ & Hparse).
  split; [|split].
  - eexists. split; [vm_compute; reflexivity|]. split; [reflexivity|].
    destruct (Hparse (py "blank.py")
                (py "# Title" ++ nl ++ py "#" ++ nl ++ py "# last line" ++ nl
                 ++ py "---" ++ nl ++ py "x = 1") _
                ltac:(vm_compute; reflexivity))
      as (tag_line & Htag & _ & Hblank).
    apply Hblank. vm_compute in Htag. now injection Htag as <-.
  - apply (Hline (py "  table")); vm_compute; intuition discriminate.
  - eexists. split; [apply Hpage; reflexivity|].
    split; vm_compute; reflexivity.
Defined.

(** ** Inclusions *)

Module InclFacts.
Import PyStr.

Lemma incl_dropwhile p s : incl (dropwhile p s) s.
Proof.
  induction s as [|c s IH]; simpl; [apply incl_refl|].
  destruct (p c); [now apply incl_tl | apply incl_refl].
Qed.

Lemma incl_strip_by p s : incl (strip_by p s) s.
Proof.
  unfold strip_by, rstrip_by, lstrip_by. intros c Hc.
  apply in_rev, incl_dropwhile, in_rev in Hc. now apply incl_dropwhile in Hc.
Qed.

Lemma incl_splitlines_go b s line :
  In line (splitlines_go b s) -> incl line s.
Proof.
  revert b line; induction s as [|c s IH]; intros b line; simpl; [tauto|].
  destruct (b && (c =? LF)%N).
  - intros H. apply incl_tl. eauto.
  - destruct (is_linebreak c).
    + intros [<-|H]; [apply incl_nil_l | apply incl_tl; eauto].
    + destruct (splitlines_go false s) as [|l ls] eqn:E.
      * intros [<-|[]]. intros x [<-|[]]. now left.
      * intros [<-|H].
        -- apply incl_cons; [now left|]. apply incl_tl.
           apply (IH false). rewrite E. now left.
        -- apply incl_tl. apply (IH false). rewrite E. now right.
Qed.

Lemma incl_split sep s token : In token (split sep s) -> incl token s.
Proof.
  revert token; induction s as [|c s IH]; intros token; simpl.
  - intros [<-|[]]. apply incl_refl.
  - destruct (c =? sep)%N.
    + intros [<-|H]; [apply incl_nil_l | apply incl_tl; auto].
    + destruct (split sep s) as [|w ws] eqn:E.
      * intros [<-|[]]. intros x [<-|[]]. now left.
      * intros [<-|H].
        -- apply incl_cons; [now left|]. apply incl_tl, IH. now left.
        -- apply incl_tl, IH. now right.
Qed.



End InclFacts.


(** * Further properties of the generator *)

(** ** Trimming *)

Module StripFacts.
Import PyStr.

Lemma dropwhile_all p pre s :
  forallb p pre = true -> dropwhile p (pre ++ s) = dropwhile p s.
Proof.
  induction pre as [|c pre IH]; simpl; [reflexivity|].
  intros H. apply andb_true_iff in H as [-> H]. auto.
Qed.

Lemma dropwhile_head p s :
  (forall c, hd_error s = Some c -> p c = false) -> dropwhile p s = s.
Proof. destruct s as [|c s]; simpl; [reflexivity|]. intros H. now rewrite H. Qed.

Lemma dropwhile_head_false p s c :
  hd_error (dropwhile p s) = Some c -> p c = false.
Proof.
  induction s as [|x s IH]; simpl; [discriminate|].
  destruct (p x) eqn:E; [exact IH|]. simpl. now intros [= <-].
Qed.

Lemma dropwhile_split p s :
  exists pre, s = pre ++ dropwhile p s /\ forallb p pre = true.
Proof.
  induction s as [|x s (pre & IH & Hpre)]; simpl.
  - now exists [].
  - destruct (p x) eqn:E.
    + exists (x :: pre). simpl. rewrite E, Hpre. split; [now f_equal|reflexivity].
    + now exists [].
Qed.

Lemma forallb_rev (p : char -> bool) s :
  forallb p (rev s) = forallb p s.
Proof.
  induction s as [|c s IH]; simpl; [reflexivity|].
  rewrite forallb_app, IH. simpl. rewrite andb_true_r. apply andb_comm.
Qed.

(** What [strip_by] returns sits in the middle of its argument, between
    two runs of stripped characters, and is trimmed. *)
Lemma strip_by_split p s :
  exists pre post,
    s = pre ++ strip_by p s ++ post
    /\ forallb p pre = true /\ forallb p post = true
    /\ trimmed_by p (strip_by p s).
Proof.
  unfold strip_by, rstrip_by, lstrip_by.
  destruct (dropwhile_split p s) as (pre & Hs & Hpre).
  destruct (dropwhile_split p (rev (dropwhile p s))) as (tsop & Hd & Hpost).
  set (d := dropwhile p s) in *.
  set (r := dropwhile p (rev d)) in *.
  assert (d = rev r ++ rev tsop) as Hd'.
  { rewrite <- rev_app_distr, <- Hd. now rewrite rev_involutive. }
  exists pre, (rev tsop). split; [now rewrite <- Hd'|].
  split; [assumption|]. split; [now rewrite forallb_rev|]. split.
  - intros c Hc. apply (dropwhile_head_false p s). fold d. rewrite Hd'.
    destruct (rev r); [discriminate|exact Hc].
  - intros c. rewrite rev_involutive. apply dropwhile_head_false.
Qed.

(** A trimmed text between two runs of stripped characters is what
    [strip_by] returns. *)
Lemma strip_by_middle p pre t post :
  forallb p pre = true -> forallb p post = true -> trimmed_by p t ->
  strip_by p (pre ++ t ++ post) = t.
Proof.
  intros Hpre Hpost [Hhd Hlast]. unfold strip_by, rstrip_by, lstrip_by.
  rewrite dropwhile_all by assumption.
  destruct t as [|c t].
  - simpl. rewrite <- (app_nil_r post) at 1.
    rewrite dropwhile_all by assumption. reflexivity.
  - assert (dropwhile p ((c :: t) ++ post) = (c :: t) ++ post) as ->.
    { apply dropwhile_head. intros x Hx. apply Hhd. exact Hx. }
    rewrite rev_app_distr, dropwhile_all by now rewrite forallb_rev.
    rewrite dropwhile_head by exact Hlast. apply rev_involutive.
Qed.

Lemma strip_by_trimmed p t : trimmed_by p t -> strip_by p t = t.
Proof.
  intros H. rewrite <- (strip_by_middle p [] t [] eq_refl eq_refl H) at 2.
  now rewrite app_nil_r.
Qed.

End StripFacts.

(** X1: [strip_comment] removes a run of blanks and hash marks at each end
    of the line and nothing else: the line is such a run, the result, and
    such a run, and the result neither starts nor ends with a blank or a
    hash mark.  Stripping again changes nothing. *)
Theorem strip_comment_spec line :
  (exists pre post,
      line = pre ++ strip_comment line ++ post
      /\ forallb comment_char pre = true
      /\ forallb comment_char post = true)
  /\ trimmed_by comment_char (strip_comment line)
  /\ strip_comment (strip_comment line) = strip_comment line.
Proof.
  destruct (StripFacts.strip_by_split comment_char line)
    as (pre & post & Hs & Hpre & Hpost & Ht).
  split; [exists pre, post; auto|]. split; [exact Ht|].
  now apply StripFacts.strip_by_trimmed.
Qed.

(** ** Splitting and joining *)

Module SplitFacts.
Import PyStr.

Lemma split_cons_sep sep s : split sep (sep :: s) = [] :: split sep s.
Proof. simpl. now rewrite N.eqb_refl. Qed.

Lemma split_cons_other sep c s w ws :
  c <> sep -> split sep s = w :: ws -> split sep (c :: s) = (c :: w) :: ws.
Proof.
  intros Hc E. simpl. destruct (N.eqb_spec c sep); [tauto|]. now rewrite E.
Qed.

Lemma split_app_sep sep x rest :
  ~ In sep x -> split sep (x ++ sep :: rest) = x :: split sep rest.
Proof.
  induction x as [|c x IH]; intros Hx.
  - apply split_cons_sep.
  - simpl in Hx. change ((c :: x) ++ sep :: rest) with (c :: x ++ sep :: rest).
    apply split_cons_other; [intuition congruence|]. apply IH. tauto.
Qed.

Lemma split_token_no_sep sep s token :
  In token (split sep s) -> ~ In sep token.
Proof.
  revert token; induction s as [|c s IH]; intros token; simpl.
  - intros [<-|[]]. tauto.
  - destruct (N.eqb_spec c sep) as [->|Hc].
    + intros [<-|H]; [tauto|auto].
    + destruct (split sep s) as [|w ws] eqn:E.
      * intros [<-|[]]. simpl. intuition congruence.
      * intros [<-|H]; [|apply IH; now right].
        simpl. intros [H|H]; [congruence|]. apply (IH w); [now left|exact H].
Qed.

Lemma split_app_prefix sep pre t w ws :
  ~ In sep pre -> split sep t = w :: ws ->
  split sep (pre ++ t) = (pre ++ w) :: ws.
Proof.
  induction pre as [|z pre IH]; intros Hpre E; [exact E|].
  simpl in Hpre. apply split_cons_other; [intuition congruence|].
  apply IH; [tauto|exact E].
Qed.

(** Splitting a joined list at the first character of the separator gives
    the items back, each but the first behind the rest of the separator. *)
Lemma split_join c sep x l :
  ~ In c sep -> Forall (fun y => ~ In c y) (x :: l) ->
  split c (join (c :: sep) (x :: l)) = x :: map (app sep) l.
Proof.
  intros Hsep. revert x; induction l as [|y l IH]; intros x H.
  - simpl. apply PyStrFacts.split_no_sep. now inversion H.
  - change (join (c :: sep) (x :: y :: l))
      with (x ++ c :: (sep ++ join (c :: sep) (y :: l))).
    inversion H as [|? ? Hx Hl]; subst.
    rewrite split_app_sep by assumption. f_equal.
    cbn [map]. apply split_app_prefix; [assumption|]. now apply IH.
Qed.

Lemma join_In c sep l :
  In c (join sep l) -> In c sep \/ exists x, In x l /\ In c x.
Proof.
  induction l as [|x l IH]; [intros []|].
  destruct l as [|y l]; [intros H; right; exists x; simpl; auto|].
  change (join sep (x :: y :: l)) with (x ++ sep ++ join sep (y :: l)).
  rewrite !in_app_iff. intros [H|[H|H]].
  - right. exists x. simpl. auto.
  - now left.
  - destruct (IH H) as [H'|(z & Hz & Hc)]; [now left|].
    right. exists z. split; [now right|exact Hc].
Qed.

End SplitFacts.

(** ** More on keyword detection *)

(** X2: a keyword that [get_keywords_if_available] returns holds no space,
    no comma and no period, and neither starts nor ends with whitespace. *)
Theorem keywords_are_clean line k :
  In k (get_keywords_if_available line) ->
  ~ In space k /\ ~ In comma k /\ ~ In period k
  /\ trimmed_by PyStr.isspace k.
Proof.
  unfold get_keywords_if_available.
  change (py ".") with [period]. change (py " ") with [space].
  destruct (PyStr.contains [period] line) eqn:Hp; [intros []|].
  destruct (existsb _ _) eqn:Hs; [intros []|]. simpl.
  intros Hk. split; [|split; [|split]].
  - apply PyStrFacts.contains_char_not_In.
    rewrite <- not_true_iff_false in Hs. rewrite existsb_exists in Hs.
    destruct (PyStr.contains [space] k) eqn:E; [|reflexivity].
    exfalso. apply Hs. eauto.
  - apply in_map_iff in Hk as (token & <- & Hk).
    apply SplitFacts.split_token_no_sep in Hk.
    intros H. apply Hk. now apply InclFacts.incl_strip_by in H.
  - apply in_map_iff in Hk as (token & <- & Hk).
    apply InclFacts.incl_split in Hk.
    apply PyStrFacts.contains_char_not_In in Hp.
    intros H. apply Hp, Hk. now apply InclFacts.incl_strip_by in H.
  - apply in_map_iff in Hk as (token & <- & Hk).
    destruct (StripFacts.strip_by_split PyStr.isspace token)
      as (_ & _ & _ & _ & _ & Ht). exact Ht.
Qed.

Lemma keywords_are_clean_witness :
  ~ In space (py "grid") /\ ~ In comma (py "grid") /\ ~ In period (py "grid")
  /\ trimmed_by PyStr.isspace (py "grid").
Proof.
  apply (keywords_are_clean (py "table,  grid ") (py "grid")).
  vm_compute. tauto.
Defined.

(** X3: [get_keywords_if_available] returns the empty list exactly when the
    line holds a period or one of its trimmed tokens holds a space; in every
    other case it returns one keyword more than the line has commas. *)
Theorem keywords_empty_iff line :
  (get_keywords_if_available line = []
   <-> In period line
       \/ exists token,
            In token (map PyStr.strip (PyStr.split comma line))
            /\ In space token)
  /\ (get_keywords_if_available line <> [] ->
      length (get_keywords_if_available line)
      = S (count_occ N.eq_dec line comma)).
Proof.
  assert (forall s, length (PyStr.split comma s)
                    = S (count_occ N.eq_dec s comma)) as Hcount.
  { induction s as [|c s IH]; [reflexivity|].
    cbn [count_occ PyStr.split].
    destruct (N.eqb_spec c comma) as [->|Hc].
    - destruct (N.eq_dec comma comma); [|congruence]. simpl. now rewrite IH.
    - destruct (N.eq_dec c comma); [congruence|].
      destruct (PyStr.split comma s); simpl in *; congruence. }
  unfold get_keywords_if_available.
  change (py ".") with [period]. change (py " ") with [space].
  destruct (PyStr.contains [period] line) eqn:Hp.
  - simpl. split; [|congruence]. split; [|reflexivity].
    intros _. left. now apply PyStrFacts.contains_char_In.
  - destruct (existsb _ _) eqn:Hs; simpl.
    + split; [|congruence]. split; [|reflexivity]. intros _. right.
      apply existsb_exists in Hs as (token & Ht & Hc).
      exists token. split; [exact Ht|]. now apply PyStrFacts.contains_char_In.
    + split.
      * split.
        -- intros H. apply (f_equal (@length str)) in H.
           rewrite length_map, Hcount in H. discriminate.
        -- intros [H|(token & Ht & Hc)].
           ++ apply PyStrFacts.contains_char_In in H. congruence.
           ++ rewrite <- not_true_iff_false in Hs. exfalso. apply Hs.
              apply existsb_exists. exists token. split; [exact Ht|].
              now apply PyStrFacts.contains_char_In.
      * intros _. now rewrite length_map, Hcount.
Qed.

Lemma keywords_empty_iff_witness :
  length (get_keywords_if_available (py "form, input, text")) = 3.
Proof.
  apply (proj2 (keywords_empty_iff (py "form, input, text"))).
  vm_compute. discriminate.
Defined.

(** X4: a tag line written as clean keywords joined by a comma and a space
    reads back as these keywords, in order. *)
Theorem keywords_round_trip k ks :
  Forall (fun x => ~ In space x /\ ~ In comma x /\ ~ In period x
                   /\ trimmed_by PyStr.isspace x) (k :: ks) ->
  get_keywords_if_available (PyStr.join (py ", ") (k :: ks)) = k :: ks.
Proof.
  intros H. unfold get_keywords_if_available.
  change (py ", ") with (comma :: [space]).
  change (py ".") with [period]. change (py " ") with [space].
  rewrite SplitFacts.split_join.
  - assert (map PyStr.strip (k :: map (app [space]) ks) = k :: ks) as ->.
    { cbn [map]. inversion H as [|? ? (_ & _ & _ & Hk) Hks]; subst. f_equal.
      - now apply StripFacts.strip_by_trimmed.
      - rewrite map_map. clear -Hks.
        induction Hks as [|x l (_ & _ & _ & Hx) Hl IH]; [reflexivity|].
        cbn [map]. f_equal; [|exact IH].
        rewrite <- (app_nil_r x) at 1.
        now apply (StripFacts.strip_by_middle PyStr.isspace [space] x []). }
    assert (PyStr.contains [period] (PyStr.join [comma; space] (k :: ks))
            = false) as ->.
    { apply PyStrFacts.contains_char_not_In. intros Hin.
      apply SplitFacts.join_In in Hin as [Hin|(x & Hx & Hin)].
      - simpl in Hin. intuition discriminate.
      - rewrite Forall_forall in H. apply H in Hx. tauto. }
    assert (existsb (PyStr.contains [space]) (k :: ks) = false) as ->;
      [|reflexivity].
    apply not_true_iff_false. rewrite existsb_exists.
    intros (x & Hx & Hc). apply PyStrFacts.contains_char_In in Hc.
    rewrite Forall_forall in H. apply H in Hx. tauto.
  - simpl. intuition discriminate.
  - eapply Forall_impl; [|exact H]. simpl. tauto.
Qed.

Lemma keywords_round_trip_witness :
  get_keywords_if_available (PyStr.join (py ", ") [py "form"; py "input"])
  = [py "form"; py "input"].
Proof.
  apply (keywords_round_trip (py "form") [py "input"]).
  constructor; [|constructor; [|constructor]];
    (split; [|split; [|split; [|split]]]);
    try (vm_compute; intuition discriminate);
    intros c Hc; injection Hc as <-; reflexivity.
Defined.

(** ** More on names, slugs and subtitles *)

Lemma rfind_from_spec c s i :
  PyStr.rfind_from i c s = (-1)%Z
  \/ ((i <= PyStr.rfind_from i c s)%Z
      /\ nth_error s (Z.to_nat (PyStr.rfind_from i c s - i)) = Some c).
Proof.
  revert i; induction s as [|x s IH]; intros i; simpl; [now left|].
  destruct (IH (i + 1)%Z) as [E|[Hle Hnth]].
  - rewrite E. simpl. destruct (N.eqb_spec x c) as [->|_]; [|now left].
    right. split; [lia|]. now rewrite Z.sub_diag.
  - destruct (Z.leb_spec 0 (PyStr.rfind_from (i + 1) c s)) as [H0|H0].
    + right. split; [lia|].
      replace (Z.to_nat (PyStr.rfind_from (i + 1) c s - i))
        with (S (Z.to_nat (PyStr.rfind_from (i + 1) c s - (i + 1)))) by lia.
      exact Hnth.
    + destruct (N.eqb_spec x c) as [->|_]; [|now left].
      right. split; [lia|]. now rewrite Z.sub_diag.
Qed.

Lemma hd_error_skipn {A : Type} (l : list A) n x :
  nth_error l n = Some x -> hd_error (skipn n l) = Some x.
Proof.
  revert l; induction n as [|n IH]; intros [|y l]; simpl; try discriminate;
    auto.
Qed.

Lemma splitext_ext_dot p :
  snd (PosixPath.splitext p) = []
  \/ hd_error (snd (PosixPath.splitext p)) = Some period.
Proof.
  unfold PosixPath.splitext.
  destruct (Z.ltb_spec (PyStr.rfind slash p) (PyStr.rfind period p)) as [H|H];
    [|now left].
  destruct (PosixPath.skip_leading_dots _); [|now left].
  right. simpl. apply hd_error_skipn. unfold PyStr.rfind in *.
  destruct (rfind_from_spec period p 0) as [E|[_ Hnth]].
  - rewrite E in H.
    destruct (rfind_from_spec slash p 0) as [E'|[Hle _]]; lia.
  - now rewrite Z.sub_0_r in Hnth.
Qed.

(** X5: the name of an example is its file name without a last piece that
    is empty or starts with a period; the slug has the length of the name,
    holds no underscore, and is the name itself exactly when the name holds
    no underscore. *)
Theorem example_name_and_slug f t d k c :
  (exists ext,
      filename (Example_init f t d k c) = name (Example_init f t d k c) ++ ext
      /\ (ext = [] \/ hd_error ext = Some period))
  /\ length (slug (Example_init f t d k c))
     = length (name (Example_init f t d k c))
  /\ ~ In underscore (slug (Example_init f t d k c))
  /\ (slug (Example_init f t d k c) = name (Example_init f t d k c)
      <-> ~ In underscore (name (Example_init f t d k c))).
Proof.
  simpl. set (n := fst (PosixPath.splitext f)).
  split; [|split; [|split]].
  - exists (snd (PosixPath.splitext f)). split.
    + symmetry. apply splitext_app.
    + apply splitext_ext_dot.
  - apply PyStrFacts.replace_length.
  - unfold PyStr.replace. intros H. apply in_map_iff in H as (x & Hx & _).
    destruct (N.eqb_spec x underscore); [discriminate|congruence].
  - unfold PyStr.replace. clearbody n. induction n as [|x n IH]; simpl.
    + tauto.
    + destruct (N.eqb_spec x underscore) as [->|Hx].
      * split; [discriminate|tauto].
      * split.
        -- intros [= H]. apply IH in H. intuition congruence.
        -- intros H. f_equal. apply IH. tauto.
Qed.

Lemma splitlines_no_linebreak b s line :
  In line (PyStr.splitlines_go b s) ->
  forallb (fun c => negb (PyStr.is_linebreak c)) line = true.
Proof.
  revert b line; induction s as [|c s IH]; intros b line; simpl; [tauto|].
  destruct (b && (c =? LF)%N); [apply IH|].
  destruct (PyStr.is_linebreak c) eqn:Hc.
  - intros [<-|H]; [reflexivity|eauto].
  - destruct (PyStr.splitlines_go false s) as [|l ls] eqn:E.
    + intros [<-|[]]. simpl. now rewrite Hc.
    + intros [<-|H].
      * simpl. rewrite Hc. simpl. apply (IH false). rewrite E. now left.
      * apply (IH false). rewrite E. now right.
Qed.

Lemma no_linebreak_no_LF line :
  forallb (fun c => negb (PyStr.is_linebreak c)) line = true -> ~ In LF line.
Proof.
  rewrite forallb_forall. intros H Hin. apply H in Hin. discriminate.
Qed.

(** X6: the subtitle of an example holds no line feed and neither starts
    nor ends with whitespace.  For an example that was parsed, the title
    holds no line-break character, splitting the description at line feeds
    gives back the stripped lines of the header after the title, and the
    subtitle is the first of them, trimmed. *)
Theorem subtitle_and_description_lines :
  (forall f t d k c,
      ~ In LF (subtitle (Example_init f t d k c))
      /\ trimmed_by PyStr.isspace (subtitle (Example_init f t d k c)))
  /\ (forall fn contents e,
        parse_example fn contents = Ok e ->
        forallb (fun c => negb (PyStr.is_linebreak c)) (title e) = true
        /\ PyStr.split LF (description e)
           = map strip_comment (tl (header_lines contents))
        /\ subtitle e
           = PyStr.strip (strip_comment (nth 1 (header_lines contents) []))).
Proof.
  split.
  - intros f t d k c. simpl.
    destruct (StripFacts.strip_by_split PyStr.isspace
                (hd [] (PyStr.split LF d))) as (pre & post & Hs & _ & _ & Ht).
    split; [|exact Ht]. intros Hin.
    assert (In LF (hd [] (PyStr.split LF d))) as Hin'
      by now apply InclFacts.incl_strip_by in Hin.
    revert Hin'. apply SplitFacts.split_token_no_sep with (s := d).
    destruct (PyStr.split LF d) eqn:E; [|now left].
    now apply PyStrFacts.split_not_nil in E.
  - intros fn contents e H. rewrite parse_example_eq in H.
    unfold header_lines, PyStr.split_max1.
    destruct (PyStr.partition (py "---") contents) as [[h cr]|];
      [|discriminate].
    cbn [hd]. unfold PyStr.splitlines in *.
    destruct (PyStr.splitlines_go false (PyStr.strip h)) as [|t rest] eqn:L;
      [discriminate|].
    inv_bind H. injection H as <-. cbn [title description subtitle
      Example_init tl].
    assert (forall line, In line (t :: rest) -> ~ In LF (strip_comment line))
      as Hlines.
    { intros line Hin Hlf. rewrite <- L in Hin.
      apply splitlines_no_linebreak, no_linebreak_no_LF in Hin.
      apply Hin. now apply InclFacts.incl_strip_by in Hlf. }
    assert (2 <= length (map strip_comment rest)) as Hlen
      by (apply getitem_second_to_last; eauto).
    destruct rest as [|r1 rest]; [simpl in Hlen; lia|].
    assert (PyStr.split LF (PyStr.join nl (map strip_comment (r1 :: rest)))
            = map strip_comment (r1 :: rest)) as Hsplit.
    { cbn [map]. change nl with (LF :: []).
      rewrite SplitFacts.split_join.
      - f_equal. now rewrite map_id.
      - tauto.
      - change (strip_comment r1 :: map strip_comment rest)
          with (map strip_comment (r1 :: rest)).
        apply Forall_map, Forall_forall. intros line Hin. apply Hlines.
        now right. }
    split; [|split].
    + assert (forallb (fun c => negb (PyStr.is_linebreak c)) t = true) as Ht.
      { apply (splitlines_no_linebreak false (PyStr.strip h)).
        rewrite L. now left. }
      rewrite forallb_forall in *. intros c Hc. apply Ht.
      now apply InclFacts.incl_strip_by in Hc.
    + exact Hsplit.
    + rewrite Hsplit. reflexivity.
Qed.

Lemma subtitle_and_description_lines_witness :
  PyStr.split LF
    (py "Use a form to collect data." ++ nl ++ py "form, input" ++ nl)
  = map strip_comment (tl (header_lines sample_form))
  /\ py "Use a form to collect data."
     = PyStr.strip (strip_comment (nth 1 (header_lines sample_form) [])).
Proof.
  destruct subtitle_and_description_lines as (_ & H).
  destruct (H (py "form.py") sample_form
              (Example_init (py "form.py") (py "Form")
                 (py "Use a form to collect data." ++ nl ++ py "form, input"
                  ++ nl)
                 [py "form"; py "input"]
                 (py "from h2o_wave import ui" ++ nl ++ nl
                  ++ py "ui.form_card()")))
    as (_ & Hd & Hs); [vm_compute; reflexivity|].
  split; [exact Hd|exact Hs].
Defined.

(** ** The layout of an example file *)

Lemma splitlines_line line rest :
  forallb (fun c => negb (PyStr.is_linebreak c)) line = true ->
  PyStr.splitlines_go false (line ++ LF :: rest)
  = line :: PyStr.splitlines_go false rest.
Proof.
  induction line as [|c line IH]; intros H; [reflexivity|].
  simpl in H. apply andb_true_iff in H as [Hc H].
  apply negb_true_iff in Hc.
  change ((c :: line) ++ LF :: rest) with (c :: line ++ LF :: rest).
  cbn [PyStr.splitlines_go andb]. rewrite Hc, IH by assumption. reflexivity.
Qed.

Lemma getitem_second_to_last_app {A : Type} (l : list A) a b :
  getitem (l ++ [a; b]) (-2) = Ok a.
Proof.
  unfold getitem. cbv zeta. change (-2 <? 0)%Z with true. cbv iota.
  rewrite length_app. cbn [length].
  replace (-2 + Z.of_nat (length l + 2))%Z with (Z.of_nat (length l)) by lia.
  destruct (Z.ltb_spec (Z.of_nat (length l)) 0) as [H|_]; [lia|].
  rewrite Nat2Z.id, nth_error_app2, Nat.sub_diag by lia. reflexivity.
Qed.

Lemma strip_leading_newline s : PyStr.strip (nl ++ s) = PyStr.strip s.
Proof.
  unfold PyStr.strip, PyStr.strip_by, PyStr.lstrip_by.
  now rewrite StripFacts.dropwhile_all.
Qed.

Section Layout.

Let line_ok (l : str) : Prop :=
  forallb (fun c => negb (PyStr.is_linebreak c)) l = true
  /\ ~ In hyphen l
  /\ trimmed_by comment_char l.

Lemma comment_lines_no_hyphen lines :
  Forall line_ok lines -> ~ In hyphen (concat (map comment_line lines)).
Proof.
  induction 1 as [|l lines (_ & Hl & _) _ IH]; simpl; [tauto|].
  unfold comment_line. rewrite !in_app_iff. simpl. intuition discriminate.
Qed.

Lemma comment_lines_splitlines lines :
  Forall line_ok lines ->
  PyStr.splitlines_go false (concat (map comment_line lines) ++ py "#")
  = map (app (py "# ")) lines ++ [py "#"].
Proof.
  induction 1 as [|l lines (Hl & _ & _) _ IH]; [reflexivity|].
  cbn [map concat]. unfold comment_line at 1.
  replace (((py "# " ++ l ++ nl) ++ concat (map comment_line lines))
           ++ py "#")
    with ((py "# " ++ l)
          ++ LF :: (concat (map comment_line lines) ++ py "#"))
    by (now rewrite <- !app_assoc).
  rewrite splitlines_line, IH; [reflexivity|].
  rewrite forallb_app. now rewrite Hl.
Qed.

Lemma strip_comment_marker l :
  trimmed_by comment_char l -> strip_comment (py "# " ++ l) = l.
Proof.
  intros H. rewrite <- (app_nil_r l) at 1.
  now apply (StripFacts.strip_by_middle comment_char (py "# ") l []).
Qed.

(** X7: a file laid out as the examples of the repository are (the title,
    the lines of the description and the tag line behind comment markers,
    then the separator line and the code) parses to its title, to these
    lines joined (with the empty rest of the separator line as last line),
    to the keywords of the tag line and to the trimmed code, as long as
    these lines hold no hyphen and no line break and neither start nor end
    with a blank or a hash mark. *)
Theorem example_source_parses fn t ds tag code_text :
  Forall (fun l =>
            forallb (fun c => negb (PyStr.is_linebreak c)) l = true
            /\ ~ In hyphen l
            /\ trimmed_by comment_char l)
    (t :: ds ++ [tag]) ->
  parse_example fn (example_source t ds tag code_text)
  = Ok (Example_init fn t (PyStr.join nl (ds ++ [tag; []]))
          (get_keywords_if_available tag) (PyStr.strip code_text)).
Proof.
  intros H. set (lines := t :: ds ++ [tag]) in *.
  change (Forall line_ok lines) in H.
  rewrite parse_example_eq. unfold example_source.
  change (t :: ds ++ [tag]) with lines.
  replace (concat (map comment_line lines) ++ py "# ---" ++ nl ++ code_text)
    with ((concat (map comment_line lines) ++ py "# ")
          ++ (hyphen :: py "--") ++ (nl ++ code_text))
    by (now rewrite <- !app_assoc).
  change (PyStr.partition (py "---"))
    with (PyStr.partition (hyphen :: py "--")).
  rewrite PartitionFacts.partition_fresh_head.
  2:{ rewrite in_app_iff. intros [Hin|Hin].
      - now apply comment_lines_no_hyphen in Hin.
      - simpl in Hin. intuition discriminate. }
  assert (PyStr.strip (concat (map comment_line lines) ++ py "# ")
          = concat (map comment_line lines) ++ py "#") as ->.
  { replace (concat (map comment_line lines) ++ py "# ")
      with ([] ++ (concat (map comment_line lines) ++ py "#") ++ py " ")
      by (now rewrite <- !app_assoc).
    apply StripFacts.strip_by_middle; try reflexivity. split.
    - intros c Hc. unfold lines in Hc. simpl in Hc. now injection Hc as <-.
    - intros c Hc. rewrite rev_app_distr in Hc. simpl in Hc.
      now injection Hc as <-. }
  unfold PyStr.splitlines. rewrite comment_lines_splitlines by assumption.
  unfold lines. cbn [map app].
  inversion H as [|? ? (_ & _ & Ht) Hrest]; subst.
  rewrite strip_comment_marker by assumption.
  assert (map strip_comment (map (app (py "# ")) (ds ++ [tag]) ++ [py "#"])
          = ds ++ [tag; []]) as ->.
  { rewrite map_app, map_map.
    replace (ds ++ [tag; []]) with ((ds ++ [tag]) ++ [[]])
      by (now rewrite <- app_assoc).
    f_equal. clear -Hrest.
    induction Hrest as [|l ls (_ & _ & Hl) _ IH]; [reflexivity|].
    cbn [map]. now rewrite strip_comment_marker, IH. }
  rewrite getitem_second_to_last_app. cbn [bind].
  now rewrite strip_leading_newline.
Qed.

End Layout.

Lemma example_source_parses_witness :
  parse_example (py "table.py")
    (example_source (py "Table") [py "Use a table to show rows"]
       (py "table, data") (py "print('rows')" ++ nl))
  = Ok (Example_init (py "table.py") (py "Table")
          (PyStr.join nl [py "Use a table to show rows"; py "table, data"; []])
          [py "table"; py "data"] (py "print('rows')")).
Proof.
  apply (example_source_parses (py "table.py") (py "Table")
           [py "Use a table to show rows"] (py "table, data")
           (py "print('rows')" ++ nl)).
  repeat (constructor; [split; [reflexivity|split; [vm_compute; intuition discriminate|split; intros c Hc; injection Hc as <-; reflexivity]]|]).
  constructor.
Defined.

(** ** More on the keyword index *)

Lemma index_examples_dict examples :
  exists d,
    index_examples examples = sorted d
    /\ NoDup (map fst d)
    /\ (forall k, In k (map fst d) <-> In k (map fst (keyword_pairs examples)))
    /\ (forall k,
          dict_get d k
          = map snd (filter (fun p => PyStr.eqb (fst p) k)
                       (keyword_pairs examples))).
Proof.
  unfold index_examples. rewrite index_fold_pairs.
  destruct (dict_build (keyword_pairs examples)) as (Hnd & Hkeys & Hget).
  eexists. split; [reflexivity|]. auto.
Qed.

Lemma keyword_pairs_In examples k e :
  In (k, e) (keyword_pairs examples) <-> In e examples /\ In k (keywords e).
Proof.
  unfold keyword_pairs. rewrite in_flat_map. split.
  - intros (e' & He' & H). apply in_map_iff in H as (k' & [= <- <-] & H). auto.
  - intros [He Hk]. exists e. split; [exact He|]. apply in_map_iff. eauto.
Qed.

Lemma index_group_members examples k es :
  In (k, es) (index_examples examples) ->
  forall e, In e es <-> In e examples /\ In k (keywords e).
Proof.
  destruct (index_examples_dict examples) as (d & -> & Hnd & _ & Hget).
  intros Hin e. apply (Permutation_in _ (sorted_perm d)) in Hin.
  apply (dict_get_In d k es Hnd) in Hin. rewrite <- Hin, Hget.
  rewrite <- keyword_pairs_In, in_map_iff. split.
  - intros ([k' e'] & <- & H). apply filter_In in H as [H E].
    apply PyStrOrder.eqb_eq in E. simpl in E. now subst.
  - intros H. exists (k, e). split; [reflexivity|]. apply filter_In.
    split; [exact H|]. apply PyStrOrder.eqb_refl.
Qed.

(** X9: a group of the keyword index lists exactly the examples that carry
    its keyword, and is never empty; every example is listed under each of
    its keywords. *)
Theorem index_groups_sound_and_complete examples :
  (forall k es,
      In (k, es) (index_examples examples) ->
      es <> []
      /\ forall e, In e es <-> In e examples /\ In k (keywords e))
  /\ (forall e k,
        In e examples -> In k (keywords e) ->
        exists es, In (k, es) (index_examples examples) /\ In e es).
Proof.
  assert (forall k, In k (map fst (index_examples examples))
                    <-> In k (map fst (keyword_pairs examples))) as Hkeys.
  { destruct (index_examples_dict examples) as (d & -> & _ & Hk & _).
    intros k. rewrite <- Hk. split; apply Permutation_in;
      [|apply Permutation_sym]; apply Permutation_map, sorted_perm. }
  split.
  - intros k es Hin. split; [|now apply index_group_members].
    assert (In k (map fst (keyword_pairs examples))) as Hk.
    { apply Hkeys. now apply (in_map fst) in Hin. }
    apply in_map_iff in Hk as ([k' e] & Hk' & Hp). simpl in Hk'. subst k'.
    apply keyword_pairs_In in Hp.
    apply (index_group_members examples k es Hin) in Hp.
    intros ->. exact Hp.
  - intros e k He Hk.
    assert (In k (map fst (index_examples examples))) as Hin.
    { apply Hkeys. apply in_map_iff. exists (k, e). split; [reflexivity|].
      now apply keyword_pairs_In. }
    apply in_map_iff in Hin as ([k' es] & Hk' & Hin). simpl in Hk'. subst k'.
    exists es. split; [exact Hin|].
    now apply (index_group_members examples k es Hin).
Qed.

Lemma index_groups_sound_and_complete_witness :
  exists es,
    In (py "y", es)
      (index_examples
         [Example_init (py "one.py") (py "One") [] [py "x"; py "y"] [];
          Example_init (py "two.py") (py "Two") [] [py "y"] []])
    /\ In (Example_init (py "two.py") (py "Two") [] [py "y"] []) es.
Proof.
  apply (proj2 (index_groups_sound_and_complete
                  [Example_init (py "one.py") (py "One") [] [py "x"; py "y"] [];
                   Example_init (py "two.py") (py "Two") [] [py "y"] []]));
    vm_compute; tauto.
Defined.

(** X10: the keyword index is empty exactly when no example has a keyword,
    and the tag page is then its head alone. *)
Theorem index_without_keywords examples :
  (index_examples examples = []
   <-> forall e, In e examples -> keywords e = [])
  /\ ((forall e, In e examples -> keywords e = []) ->
      make_examples_by_keyword examples = tags_head ++ nl).
Proof.
  assert (index_examples examples = []
          <-> forall e, In e examples -> keywords e = []) as Hiff.
  { destruct (index_examples_dict examples) as (d & -> & _ & Hk & _). split.
    - intros E e He. destruct (keywords e) as [|k ks] eqn:K; [reflexivity|].
      exfalso.
      assert (In k (map fst d)) as Hin.
      { apply Hk, in_map_iff. exists (k, e). split; [reflexivity|].
        apply keyword_pairs_In. rewrite K. simpl. auto. }
      apply (Permutation_in _ (Permutation_sym
                                 (Permutation_map fst (sorted_perm d)))) in Hin.
      now rewrite E in Hin.
    - intros H. destruct d as [|[k es] d]; [reflexivity|]. exfalso.
      assert (In k (map fst (keyword_pairs examples))) as Hin
        by (apply Hk; now left).
      apply in_map_iff in Hin as ([k' e] & _ & Hp).
      apply keyword_pairs_In in Hp as [He Hk']. rewrite (H e He) in Hk'.
      exact Hk'. }
  split; [exact Hiff|]. intros H. unfold make_examples_by_keyword.
  apply Hiff in H. rewrite H. reflexivity.
Qed.

Lemma index_without_keywords_witness :
  make_examples_by_keyword
    [Example_init (py "flex.py") (py "Flex") (py "Boxes.") [] (py "pass")]
  = tags_head ++ nl.
Proof.
  apply (proj2 (index_without_keywords
                  [Example_init (py "flex.py") (py "Flex") (py "Boxes.") []
                     (py "pass")])).
  intros e [<-|[]]. reflexivity.
Defined.

(** ** More on the run *)

Lemma mapM_Ok_iff {A B : Type} (f : A -> result B) (l : list A) :
  (exists ys, mapM f l = Ok ys) <-> forall x, In x l -> exists y, f x = Ok y.
Proof.
  induction l as [|a l IH]; simpl.
  - split; [intros _ x []|eauto].
  - split.
    + intros [ys H]. do 2 inv_bind H. intros x [<-|Hx]; [eauto|].
      apply IH; eauto.
    + intros H. destruct (H a (or_introl eq_refl)) as [y Hy].
      destruct (proj2 IH (fun x Hx => H x (or_intror Hx))) as [ys Hys].
      rewrite Hy, Hys. simpl. eauto.
Qed.

Lemma main_Ok_inv example_dir website_dir json_dumps w w' :
  main example_dir website_dir json_dumps w = (Ok tt, w') ->
  exists txt examples,
    files w (PosixPath.join example_dir (py "tour.conf")) = Some txt
    /\ mapM (load_example example_dir w)
         (manifest_filenames (PyStr.readlines txt)) = Ok examples
    /\ w' = write_all website_dir json_dumps w examples.
Proof.
  unfold main. destruct (bind _ _) as [examples|e] eqn:H; [|discriminate].
  intros [= <-]. inv_bind H. unfold read_lines in E. inv_bind E.
  injection E as <-. unfold read_file in E0.
  destruct (files w _) as [txt|] eqn:F; [|discriminate].
  injection E0 as <-. eauto.
Qed.

Lemma mapM_first_failure {A B : Type} (f : A -> result B) before a after x :
  (forall y, In y before -> exists b, f y = Ok b) ->
  f a = Raise x ->
  mapM f (before ++ a :: after) = Raise x.
Proof.
  induction before as [|y before IH]; intros Hb Ha; simpl.
  - now rewrite Ha.
  - destruct (Hb y (or_introl eq_refl)) as [b Hy]. rewrite Hy. simpl.
    rewrite IH; [reflexivity| |exact Ha]. intros z Hz. apply Hb. now right.
Qed.

(** X11: loading comes before writing.  A run whose manifest cannot be
    read fails with an OS error, and a run in which a listed file does not
    load fails with the error of the first such file, in both cases with
    nothing written and nothing printed; a run that succeeds has loaded
    every file the manifest lists. *)
Theorem main_load_failure_writes_nothing example_dir website_dir json_dumps w :
  (files w (PosixPath.join example_dir (py "tour.conf")) = None ->
   main example_dir website_dir json_dumps w = (Raise OSError, w))
  /\ (forall txt before fn after x,
        files w (PosixPath.join example_dir (py "tour.conf")) = Some txt ->
        manifest_filenames (PyStr.readlines txt) = before ++ fn :: after ->
        (forall f, In f before ->
                   exists e, load_example example_dir w f = Ok e) ->
        load_example example_dir w fn = Raise x ->
        main example_dir website_dir json_dumps w = (Raise x, w))
  /\ (forall w',
        main example_dir website_dir json_dumps w = (Ok tt, w') ->
        exists txt,
          files w (PosixPath.join example_dir (py "tour.conf")) = Some txt
          /\ forall fn,
               In fn (manifest_filenames (PyStr.readlines txt)) ->
               exists e, load_example example_dir w fn = Ok e).
Proof.
  split; [|split].
  - intros F. unfold main, read_lines, read_file. now rewrite F.
  - intros txt before fn after x F Hm Hb Hfn.
    unfold main, read_lines, read_file. rewrite F. cbn [bind].
    now rewrite Hm, (mapM_first_failure _ before fn after x Hb Hfn).
  - intros w' H. apply main_Ok_inv in H as (txt & examples & F & M & _).
    exists txt. split; [exact F|]. apply mapM_Ok_iff. eauto.
Qed.

Lemma main_load_failure_writes_nothing_witness :
  main (py "nowhere") (py "website") sample_dumps sample_world
  = (Raise OSError, sample_world)
  /\ main (py "examples") (py "website") sample_dumps
       {| files := fun p =>
                     if PyStr.eqb p (py "examples/tour.conf")
                     then Some (py "zebra.py" ++ nl ++ py "short.py" ++ nl
                                ++ py "apple.py" ++ nl)
                     else if PyStr.eqb p (py "examples/short.py")
                     then Some (py "# Short" ++ nl ++ py "---" ++ nl ++ py "x")
                     else sample_files p;
          written := []; stdout := [] |}
     = (Raise IndexError,
        {| files := fun p =>
                      if PyStr.eqb p (py "examples/tour.conf")
                      then Some (py "zebra.py" ++ nl ++ py "short.py" ++ nl
                                 ++ py "apple.py" ++ nl)
                      else if PyStr.eqb p (py "examples/short.py")
                      then Some (py "# Short" ++ nl ++ py "---" ++ nl ++ py "x")
                      else sample_files p;
           written := []; stdout := [] |}).
Proof.
  split.
  - apply (proj1 (main_load_failure_writes_nothing (py "nowhere")
                    (py "website") sample_dumps sample_world)).
    vm_compute. reflexivity.
  - apply (proj1 (proj2 (main_load_failure_writes_nothing (py "examples")
                           (py "website") sample_dumps _))
             (py "zebra.py" ++ nl ++ py "short.py" ++ nl ++ py "apple.py" ++ nl)
             [py "zebra.py"] (py "short.py") [py "apple.py"] IndexError).
    + vm_compute. reflexivity.
    + vm_compute. reflexivity.
    + intros f [<-|[]]. eexists. vm_compute. reflexivity.
    + vm_compute. reflexivity.
Defined.

Module PathFacts.

Lemma join_pre a b : exists pre, PosixPath.join a b = pre ++ b.
Proof.
  unfold PosixPath.join. destruct (PyStr.startswith [slash] b).
  - now exists [].
  - destruct (rev a) as [|c r]; [now exists []|].
    destruct (c =? slash)%N; [now exists a|].
    exists (a ++ [slash]). now rewrite <- app_assoc.
Qed.

(** In one directory the joined path is the file name behind a fixed
    prefix. *)
Lemma join_relative a b :
  PyStr.startswith [slash] b = false ->
  PosixPath.join a b = PosixPath.join a [] ++ b.
Proof.
  unfold PosixPath.join. intros ->. simpl.
  destruct (rev a) as [|c r]; [reflexivity|].
  destruct (c =? slash)%N; rewrite ?app_nil_r; [reflexivity|].
  now rewrite <- app_assoc.
Qed.

Lemma last_char_app (s t : str) c :
  hd_error (rev t) = Some c -> hd_error (rev (s ++ t)) = Some c.
Proof.
  rewrite rev_app_distr. destruct (rev t); [discriminate|]. auto.
Qed.

Lemma join_last_char a b c :
  hd_error (rev b) = Some c -> hd_error (rev (PosixPath.join a b)) = Some c.
Proof.
  intros H. destruct (join_pre a b) as [pre ->]. now apply last_char_app.
Qed.

Lemma eqb_last_char p q c c' :
  hd_error (rev p) = Some c -> hd_error (rev q) = Some c' -> c <> c' ->
  PyStr.eqb p q = false.
Proof.
  intros Hp Hq Hc. apply PyStrOrder.eqb_neq. intros ->. congruence.
Qed.

Lemma join_same_dir a b b' :
  PyStr.startswith [slash] b = false ->
  PyStr.startswith [slash] b' = false ->
  b <> b' ->
  PyStr.eqb (PosixPath.join a b) (PosixPath.join a b') = false.
Proof.
  intros Hb Hb' Hne. apply PyStrOrder.eqb_neq.
  rewrite (join_relative a b Hb), (join_relative a b' Hb').
  intros H. now apply app_inv_head in H.
Qed.

End PathFacts.

Lemma files_write_example website_dir w e :
  files (write_example website_dir w e) = files w.
Proof. unfold write_example. now destruct (negb _). Qed.

Lemma write_examples_stdout website_dir examples w :
  Forall (fun f => hd_error (rev (fst f)) = Some 100%N) (written w) ->
  stdout (fold_left (write_example website_dir) examples w)
  = stdout w
    ++ map thumbnail_alert
         (filter (fun e =>
                    match files w (PosixPath.join (thumbnail_dir website_dir)
                                     (slug e ++ py ".png")) with
                    | Some _ => false
                    | None => true
                    end)
            examples).
Proof.
  revert w; induction examples as [|e examples IH]; intros w Hw; simpl.
  - now rewrite app_nil_r.
  - assert (Forall (fun f => hd_error (rev (fst f)) = Some 100%N)
              (written (write_example website_dir w e))) as Hw'.
    { unfold write_example. destruct (negb _); simpl;
        (apply Forall_app; split; [exact Hw|]); repeat constructor; simpl;
        apply PathFacts.join_last_char, PathFacts.last_char_app; reflexivity. }
    rewrite (IH _ Hw'), files_write_example.
    assert (path_exists
              (write_file w
                 (PosixPath.join (example_md_dir website_dir)
                    (slug e ++ py ".md")) (to_md e))
              (PosixPath.join (thumbnail_dir website_dir) (slug e ++ py ".png"))
            = match files w (PosixPath.join (thumbnail_dir website_dir)
                               (slug e ++ py ".png")) with
              | Some _ => true
              | None => false
              end) as Hexists.
    { unfold path_exists, write_file. cbn [written files].
      replace (existsb _ _) with false; [reflexivity|]. symmetry.
      apply not_true_iff_false. rewrite existsb_exists.
      intros ([p txt] & Hin & E). simpl in E.
      assert (hd_error (rev p) = Some 100%N) as Hp.
      { apply in_app_or in Hin as [Hin|[[= <- _]|[]]].
        - rewrite Forall_forall in Hw. apply (Hw _ Hin).
        - apply PathFacts.join_last_char, PathFacts.last_char_app.
          reflexivity. }
      rewrite (PathFacts.eqb_last_char p _ 100%N 103%N Hp) in E;
        [discriminate| |discriminate].
      apply PathFacts.join_last_char, PathFacts.last_char_app. reflexivity. }
    unfold write_example at 1. rewrite Hexists.
    destruct (files w _); simpl; [reflexivity|].
    now rewrite <- app_assoc.
Qed.

(** X12: in a run that succeeds, started with no earlier write, the lines
    printed are one alert for each example whose thumbnail is not among the
    files, in the order of the manifest; every example gets its page
    written, with or without thumbnail. *)
Theorem main_alerts_missing_thumbnails example_dir website_dir json_dumps w w' :
  main example_dir website_dir json_dumps w = (Ok tt, w') ->
  written w = [] ->
  exists txt examples,
    files w (PosixPath.join example_dir (py "tour.conf")) = Some txt
    /\ mapM (load_example example_dir w)
         (manifest_filenames (PyStr.readlines txt)) = Ok examples
    /\ stdout w'
       = stdout w
         ++ map (fun e =>
                   py "*** ALERT: no thumbnail found for example "
                   ++ [dquote] ++ slug e ++ [dquote])
              (filter (fun e =>
                         match files w
                                 (PosixPath.join (thumbnail_dir website_dir)
                                    (slug e ++ py ".png")) with
                         | Some _ => false
                         | None => true
                         end)
                 examples)
    /\ forall e,
         In e examples ->
         In (PosixPath.join (example_md_dir website_dir) (slug e ++ py ".md"),
             to_md e) (written w').
Proof.
  intros H Hw. apply main_Ok_inv in H as (txt & examples & F & M & ->).
  exists txt, examples. split; [exact F|]. split; [exact M|]. split.
  - unfold write_all, write_file. cbn [stdout].
    apply write_examples_stdout. rewrite Hw. constructor.
  - intros e He. unfold write_all, write_file. cbn [written].
    rewrite written_write_examples, !in_app_iff. do 4 left. right.
    apply in_map_iff. eauto.
Qed.

Lemma main_alerts_missing_thumbnails_witness :
  stdout (snd (main (py "examples") (py "website") sample_dumps sample_world))
  = [py "*** ALERT: no thumbnail found for example " ++ [dquote] ++ py "zebra"
     ++ [dquote];
     py "*** ALERT: no thumbnail found for example " ++ [dquote] ++ py "apple"
     ++ [dquote]].
Proof.
  pose proof (main_alerts_missing_thumbnails (py "examples") (py "website")
                sample_dumps sample_world
                (snd (main (py "examples") (py "website") sample_dumps
                        sample_world))) as T.
  destruct (T ltac:(vm_compute; reflexivity) ltac:(vm_compute; reflexivity))
    as (txt & examples & Hf & Hm & Hout & _).
  vm_compute in Hf. injection Hf as <-.
  vm_compute in Hm. injection Hm as <-. rewrite Hout. vm_compute. reflexivity.
Defined.

Lemma readlines_concat s : concat (PyStr.readlines s) = s.
Proof.
  induction s as [|c s IH]; simpl; [reflexivity|].
  destruct (c =? LF)%N; simpl; [now rewrite IH|].
  destruct (PyStr.readlines s) as [|l ls]; simpl in *; now rewrite <- IH.
Qed.

Lemma readlines_shape s line :
  In line (PyStr.readlines s) ->
  exists body, ~ In LF body /\ (line = body \/ line = body ++ [LF]).
Proof.
  revert line; induction s as [|c s IH]; intros line; simpl; [tauto|].
  destruct (N.eqb_spec c LF) as [->|Hc].
  - intros [<-|H]; [exists []; simpl; tauto|auto].
  - destruct (PyStr.readlines s) as [|l ls].
    + intros [<-|[]]. exists [c]. simpl. intuition congruence.
    + intros [<-|H]; [|apply IH; now right].
      destruct (IH l (or_introl eq_refl)) as (body & Hb & [->| ->]);
        exists (c :: body); simpl; intuition congruence.
Qed.

Lemma strip_by_trailing p s post :
  forallb p post = true ->
  PyStr.strip_by p (s ++ post) = PyStr.strip_by p s.
Proof.
  intros Hpost.
  destruct (StripFacts.strip_by_split p s)
    as (pre & post0 & Hs & Hpre & Hpost0 & Ht).
  rewrite Hs at 1. rewrite <- !app_assoc.
  apply StripFacts.strip_by_middle; [assumption| |assumption].
  rewrite forallb_app. now rewrite Hpost0.
Qed.

(** X13: reading the lines of the manifest loses nothing, and a file name
    taken from them neither starts nor ends with whitespace, does not start
    with a hash mark, and holds no line feed. *)
Theorem manifest_filenames_clean txt :
  concat (PyStr.readlines txt) = txt
  /\ forall f,
       In f (manifest_filenames (PyStr.readlines txt)) ->
       trimmed_by PyStr.isspace f
       /\ PyStr.startswith (py "#") f = false
       /\ ~ In LF f.
Proof.
  split; [apply readlines_concat|].
  intros f Hf. unfold manifest_filenames in Hf.
  apply in_map_iff in Hf as (line & <- & Hline).
  apply filter_In in Hline as [Hline Hhash].
  apply negb_true_iff in Hhash. split; [|split; [exact Hhash|]].
  - destruct (StripFacts.strip_by_split PyStr.isspace line)
      as (_ & _ & _ & _ & _ & Ht). exact Ht.
  - apply readlines_shape in Hline as (body & Hb & [->| ->]).
    + intros H. apply Hb. now apply InclFacts.incl_strip_by in H.
    + unfold PyStr.strip. rewrite strip_by_trailing by reflexivity.
      intros H. apply Hb. now apply InclFacts.incl_strip_by in H.
Qed.

Lemma manifest_filenames_clean_witness :
  trimmed_by PyStr.isspace (py "flex.py")
  /\ PyStr.startswith (py "#") (py "flex.py") = false
  /\ ~ In LF (py "flex.py").
Proof.
  apply (proj2 (manifest_filenames_clean
                  (py "# tour" ++ nl ++ py "  flex.py " ++ nl))).
  vm_compute. tauto.
Defined.

Lemma written_write_all website_dir json_dumps w examples :
  written (write_all website_dir json_dumps w examples)
  = written w
    ++ map (fun e =>
              (PosixPath.join (example_md_dir website_dir) (slug e ++ py ".md"),
               to_md e))
         examples
    ++ [(PosixPath.join website_dir (py "examples.js"),
         py "module.exports="
         ++ json_dumps (py "index" :: py "all" :: py "examples-tags"
                        :: map slug examples));
        (PosixPath.join (example_md_dir website_dir) (py "index.md"),
         make_gallery examples);
        (PosixPath.join (example_md_dir website_dir) (py "all.md"),
         make_toc examples);
        (PosixPath.join (example_md_dir website_dir) (py "examples-tags.md"),
         make_examples_by_keyword examples)].
Proof.
  unfold write_all, write_file; simpl. rewrite written_write_examples.
  now rewrite <- !app_assoc.
Qed.

Lemma final_content_last w p txt before after :
  written w = before ++ (p, txt) :: after ->
  (forall f, In f after -> PyStr.eqb (fst f) p = false) ->
  final_content w p = Some txt.
Proof.
  intros Hw Hafter. unfold final_content. rewrite Hw, rev_app_distr.
  cbn [rev]. rewrite <- app_assoc.
  assert (forall l rest : list (str * str),
             (forall f, In f l -> PyStr.eqb (fst f) p = false) ->
             find (fun f => PyStr.eqb (fst f) p) (l ++ rest)
             = find (fun f => PyStr.eqb (fst f) p) rest) as Hskip.
  { induction l as [|x l IH]; intros rest Hl; [reflexivity|].
    simpl. rewrite (Hl x (or_introl eq_refl)). apply IH.
    intros f Hf. apply Hl. now right. }
  rewrite Hskip by (intros f Hf; apply Hafter; now apply in_rev).
  simpl. now rewrite PyStrOrder.eqb_refl.
Qed.

(** X14: after a run that succeeds, the gallery, the table of contents and
    the tag index are what their three files hold, and the list of slugs is
    what the data file holds, whatever the examples are called: these four
    files are written last. *)
Theorem index_pages_are_written_last example_dir website_dir json_dumps w w' :
  main example_dir website_dir json_dumps w = (Ok tt, w') ->
  exists txt examples,
    files w (PosixPath.join example_dir (py "tour.conf")) = Some txt
    /\ mapM (load_example example_dir w)
         (manifest_filenames (PyStr.readlines txt)) = Ok examples
    /\ final_content w'
         (PosixPath.join (example_md_dir website_dir) (py "index.md"))
       = Some (make_gallery examples)
    /\ final_content w'
         (PosixPath.join (example_md_dir website_dir) (py "all.md"))
       = Some (make_toc examples)
    /\ final_content w'
         (PosixPath.join (example_md_dir website_dir) (py "examples-tags.md"))
       = Some (make_examples_by_keyword examples)
    /\ final_content w' (PosixPath.join website_dir (py "examples.js"))
       = Some (py "module.exports="
               ++ json_dumps (py "index" :: py "all" :: py "examples-tags"
                              :: map slug examples)).
Proof.
  intros H. apply main_Ok_inv in H as (txt & examples & F & M & ->).
  exists txt, examples. split; [exact F|]. split; [exact M|].
  pose proof (written_write_all website_dir json_dumps w examples) as Hw.
  rewrite app_assoc in Hw.
  split; [|split; [|split]].
  - eapply final_content_last.
    + rewrite Hw.
      change [?a; ?b; ?c; ?d] with ([a] ++ b :: [c; d]).
      rewrite app_assoc. reflexivity.
    + intros f [<-|[<-|[]]]; apply PathFacts.join_same_dir;
        try reflexivity; discriminate.
  - eapply final_content_last.
    + rewrite Hw.
      change [?a; ?b; ?c; ?d] with ([a; b] ++ c :: [d]).
      rewrite app_assoc. reflexivity.
    + intros f [<-|[]]. apply PathFacts.join_same_dir;
        try reflexivity; discriminate.
  - eapply final_content_last.
    + rewrite Hw.
      change [?a; ?b; ?c; ?d] with ([a; b; c] ++ d :: []).
      rewrite app_assoc. reflexivity.
    + intros f [].
  - eapply final_content_last.
    + rewrite Hw. reflexivity.
    + intros f [<-|[<-|[<-|[]]]];
        apply (PathFacts.eqb_last_char _ _ 100%N 115%N);
        try discriminate;
        apply PathFacts.join_last_char; reflexivity.
Qed.

Lemma index_pages_are_written_last_witness :
  exists examples,
    map slug examples = [py "zebra"; py "apple"]
    /\ final_content
         (snd (main (py "examples") (py "website") sample_dumps sample_world))
         (py "website/docs/examples/all.md")
       = Some (make_toc examples).
Proof.
  pose proof (index_pages_are_written_last (py "examples") (py "website")
                sample_dumps sample_world
                (snd (main (py "examples") (py "website") sample_dumps
                        sample_world))) as T.
  destruct (T ltac:(vm_compute; reflexivity))
    as (txt & examples & Hf & Hm & _ & Htoc & _).
  exists examples. split; [|exact Htoc].
  vm_compute in Hf. injection Hf as <-.
  vm_compute in Hm. injection Hm as <-. reflexivity.
Defined.




(** ** More on parsing *)

(** X16: an example that was parsed keeps the file name it was loaded
    under; its code is a piece of the text, taken as it is: what stands
    between the first occurrence of three hyphens and the end of the text,
    less the whitespace at both ends.  The code neither starts nor ends with
    whitespace, the title neither with a blank nor with a hash mark. *)
Theorem parsed_code_is_verbatim fn contents e :
  parse_example fn contents = Ok e ->
  filename e = fn
  /\ (exists header_region pre post,
        PyStr.partition (py "---") contents
        = Some (header_region, pre ++ code e ++ post)
        /\ contents = header_region ++ py "---" ++ pre ++ code e ++ post
        /\ (forall i, i < length header_region ->
                      PyStr.startswith (py "---") (skipn i contents) = false)
        /\ forallb PyStr.isspace pre = true
        /\ forallb PyStr.isspace post = true)
  /\ trimmed_by PyStr.isspace (code e)
  /\ trimmed_by comment_char (title e).
Proof.
  intros H. split; [now apply parse_example_filename in H|].
  rewrite parse_example_eq in H.
  destruct (PyStr.partition (py "---") contents) as [[h cr]|] eqn:P;
    [|discriminate].
  destruct (PartitionFacts.partition_Some _ _ _ _ P) as [Hc Hfirst].
  destruct (PyStr.splitlines (PyStr.strip h)) as [|t rest]; [discriminate|].
  inv_bind H. injection H as <-. cbn [code title Example_init].
  destruct (StripFacts.strip_by_split PyStr.isspace cr)
    as (pre & post & Hcr & Hpre & Hpost & Ht).
  destruct (StripFacts.strip_by_split comment_char t)
    as (_ & _ & _ & _ & _ & Htitle).
  split; [|split; [exact Ht|exact Htitle]].
  exists h, pre, post. unfold PyStr.strip. rewrite <- Hcr.
  repeat split; assumption.
Qed.

Lemma parsed_code_is_verbatim_witness :
  exists header_region pre post,
    PyStr.partition (py "---") sample_form
    = Some (header_region,
            pre
            ++ (py "from h2o_wave import ui" ++ nl ++ nl ++ py "ui.form_card()")
            ++ post)
    /\ sample_form
       = header_region ++ py "---" ++ pre
         ++ (py "from h2o_wave import ui" ++ nl ++ nl ++ py "ui.form_card()")
         ++ post
    /\ (forall i, i < length header_region ->
                  PyStr.startswith (py "---") (skipn i sample_form) = false)
    /\ forallb PyStr.isspace pre = true
    /\ forallb PyStr.isspace post = true.
Proof.
  apply (parsed_code_is_verbatim (py "form.py") sample_form
           (Example_init (py "form.py") (py "Form")
              (py "Use a form to collect data." ++ nl ++ py "form, input" ++ nl)
              [py "form"; py "input"]
              (py "from h2o_wave import ui" ++ nl ++ nl ++ py "ui.form_card()"))).
  vm_compute. reflexivity.
Defined.

(** ** The round trip on the code *)

Module LacksFacts.
Import PyStr.







End LacksFacts.

Module MarkdownFacts.
Import Markdown.










End MarkdownFacts.






